(** * The API-to-S3 pipeline and the manifest validator

    A shallow embedding of
    - [dags/utils/transformations.py]: [clean_dataset] and [enrich_dataset],
      together with the part of pandas they call;
    - [dags/api_to_s3/api_to_s3_etl_dag.py]: the task callables
      [clean_data], [enrich_data], [upload_daily_data], [upload_hourly_data]
      and the [default_args] of the DAG;
    - [kube_validate.py]: [validate_manifest], [process_directory] and
      [main].

    Conventions of the embedding.
    - A Python [float] is idealised as an exact rational ([Qc]); NaN, [None]
      and NaT are the one missing value [Null], as pandas' [isna] sees them.
    - A Python [dict] with string keys is a [gmap string value]: the order of
      the keys, which no statement below depends on, is not kept.
    - What the code reads from its environment is an argument: the wall clock
      ([now]), pandas' timestamp parser ([parse]), the square root used
      by [std] ([sqrt]), the directory walk and the file loader of the
      validator ([walk], [load]).
    - An exception is a value of [exn]; code that may raise returns a
      [result]. *)

From Stdlib Require Import ZArith QArith Qcanon String Ascii.
From stdpp Require Import gmap strings list fin_maps sorting pretty.

Open Scope Z_scope.

(** ** Python values and exceptions *)

Inductive value :=
| Null                    (* None, NaN, NaT *)
| Int (z : Z)             (* int *)
| Num (q : Qc)            (* float *)
| Str (s : string)        (* str *)
| Bool (b : bool)         (* bool *)
| Date (d : Z)            (* datetime.date, days since 1970-01-01 *)
| Timestamp (ns : Z).     (* pandas.Timestamp, nanoseconds since the epoch *)

Inductive exn :=
| KeyError (labels : list string)
| ValueError (msg : string)
| TypeError (msg : string)
| ZeroDivisionError.

Inductive result (A : Type) :=
| Ok (a : A)
| Raise (e : exn).
Arguments Ok {A} a.
Arguments Raise {A} e.

Definition bind {A B} (r : result A) (k : A -> result B) : result B :=
  match r with Ok a => k a | Raise e => Raise e end.

Notation "'let!' x ':=' r 'in' k" := (bind r (fun x => k))
  (at level 10, x name, r at level 100, k at level 200).

Fixpoint mapM_result {A B} (f : A -> result B) (l : list A) : result (list B) :=
  match l with
  | [] => Ok []
  | x :: l' => let! y := f x in let! ys := mapM_result f l' in Ok (y :: ys)
  end.

Definition Qc_eqb (x y : Qc) : bool := Qeq_bool (this x) (this y).

#[global] Instance Qc_eq_decision : EqDecision Qc.
Proof.
  intros x y. destruct (Qc_eqb x y) eqn:E.
  - left. apply Qc_is_canon, Qeq_bool_iff, E.
  - right. intros ->. unfold Qc_eqb in E.
    rewrite (proj2 (Qeq_bool_iff _ _) (Qeq_refl _)) in E. discriminate.
Defined.

#[global] Instance value_eq_decision : EqDecision value.
Proof. solve_decision. Defined.

#[global] Instance exn_eq_decision : EqDecision exn.
Proof. solve_decision. Defined.

#[global] Instance result_eq_decision `{EqDecision A} : EqDecision (result A).
Proof. solve_decision. Defined.

Abbreviation pydict := (gmap string value).

(** ** Numbers *)

Definition qz (z : Z) : Qc := Q2Qc (inject_Z z).
Definition qn (n : nat) : Qc := qz (Z.of_nat n).

Definition Qcltb (x y : Qc) : bool :=
  match (x ?= y)%Qc with Lt => true | _ => false end.
Definition Qcleb (x y : Qc) : bool :=
  match (x ?= y)%Qc with Gt => false | _ => true end.
Definition Qcabs (x : Qc) : Qc := if Qcltb x 0 then (- x)%Qc else x.

Definition Qcsum (l : list Qc) : Qc := foldr Qcplus 0%Qc l.

(** The mean of the observations; NaN when there is none. *)
Definition Qcmean (l : list Qc) : option Qc :=
  match l with
  | [] => None
  | _ => Some (Qcsum l / qn (length l))%Qc
  end.

Definition float_cell (o : option Qc) : value :=
  match o with Some q => Num q | None => Null end.

Definition isna (v : value) : bool :=
  match v with Null => true | _ => false end.

Definition notna (v : value) : bool := negb (isna v).

(** A cell read as a float: [None] stands for NaN; a cell that is not a
    number makes the numeric reduction raise. *)
Definition as_number (v : value) : result (option Qc) :=
  match v with
  | Null => Ok None
  | Int z => Ok (Some (qz z))
  | Num q => Ok (Some q)
  | _ => Raise (TypeError "could not convert to numeric")
  end.

Definition as_numbers (s : list value) : result (list (option Qc)) :=
  mapM_result as_number s.

(** [raw_count / len(df)] on two Python ints. *)
Definition true_div (a : Z) (n : nat) : result Qc :=
  match n with
  | O => Raise ZeroDivisionError
  | _ => Ok (qz a / qn n)%Qc
  end.

(** ** Timestamps *)

Definition ns_per_hour : Z := 3600 * 1000000000.
Definition ns_per_day : Z := 24 * ns_per_hour.

Inductive errors_mode := ErrorsRaise | ErrorsCoerce.

Section Pandas.

(** pandas' string-to-timestamp parser: [Some ns] for a string it accepts. *)
Variable parse : string -> option Z.
(** The square root behind [std]. *)
Variable sqrt : Qc -> Qc.

(** [pd.to_datetime] on one cell. *)
Definition to_datetime_cell (errors : errors_mode) (v : value) : result value :=
  match v with
  | Null => Ok Null
  | Timestamp ns => Ok (Timestamp ns)
  | Date d => Ok (Timestamp (d * ns_per_day))
  | Int z => Ok (Timestamp z)
  | Num q => Ok (Timestamp (Qnum (this q) ÷ Zpos (Qden (this q))))
  | Str s =>
      match parse s, errors with
      | Some ns, _ => Ok (Timestamp ns)
      | None, ErrorsCoerce => Ok Null
      | None, ErrorsRaise => Raise (ValueError "Unknown datetime string format")
      end
  | Bool _ =>
      match errors with
      | ErrorsCoerce => Ok Null
      | ErrorsRaise => Raise (TypeError "bool is not convertible to datetime")
      end
  end.

Definition to_datetime (errors : errors_mode) (s : list value) : result (list value) :=
  mapM_result (to_datetime_cell errors) s.

(** The [.dt] accessors of a datetime Series, cell by cell. *)
Definition dt_date (v : value) : value :=
  match v with Timestamp ns => Date (ns `div` ns_per_day) | _ => Null end.

Definition dt_hour (v : value) : value :=
  match v with Timestamp ns => Int ((ns `div` ns_per_hour) `mod` 24) | _ => Null end.

Definition weekday_names : list string :=
  ["Monday"; "Tuesday"; "Wednesday"; "Thursday"; "Friday"; "Saturday"; "Sunday"].

(** 1970-01-01 was a Thursday. *)
Definition dt_day_name (v : value) : value :=
  match v with
  | Timestamp ns =>
      Str (default "" (weekday_names !! Z.to_nat (((ns `div` ns_per_day) + 3) `mod` 7)))
  | _ => Null
  end.

(** ** DataFrames

    A frame has its index (the names of the levels and, for each row, one
    label per level), its column labels and its rows. A Series taken from a
    frame is the list of its cells, in row order. *)

Record DataFrame := mkDataFrame {
  index_names : list (option string);
  columns : gset string;
  rows : list (list value * pydict)
}.

Definition len (df : DataFrame) : nat := length (rows df).

(** [df.empty]: some axis has length 0. *)
Definition df_empty (df : DataFrame) : bool :=
  bool_decide (rows df = []) || bool_decide (columns df = ∅).

(** [pd.DataFrame(records)]: the columns are the keys met in the records, a
    record that lacks a key gets NaN there; the index is a RangeIndex. *)
Definition DataFrame_of_records (records : list pydict) : DataFrame :=
  let cols : gset string := ⋃ (dom <$> records) in
  {| index_names := [None];
     columns := cols;
     rows := imap (fun i r => ([Int (Z.of_nat i)], r ∪ gset_to_gmap Null cols)) records |}.

(** [df.to_dict(orient='records')] *)
Definition to_dict_records (df : DataFrame) : list pydict := (rows df).*2.

Definition cell (c : string) (r : list value * pydict) : value :=
  default Null (r.2 !! c).

(** [df[c]] *)
Definition getitem (df : DataFrame) (c : string) : result (list value) :=
  if decide (c ∈ columns df) then Ok (cell c <$> rows df) else Raise (KeyError [c]).

(** [df[c] = s] for a Series [s] computed from [df] (same index). *)
Definition setitem (df : DataFrame) (c : string) (s : list value) : DataFrame :=
  {| index_names := index_names df;
     columns := columns df ∪ {[c]};
     rows := zip_with (fun r v => (r.1, <[c := v]> r.2)) (rows df) s |}.

(** [df[c] = v] for a scalar [v], broadcast to every row. *)
Definition setitem_scalar (df : DataFrame) (c : string) (v : value) : DataFrame :=
  {| index_names := index_names df;
     columns := columns df ∪ {[c]};
     rows := (fun r => (r.1, <[c := v]> r.2)) <$> rows df |}.

(** [df[mask]] for a boolean Series [mask]: a new frame. *)
Definition boolean_filter (df : DataFrame) (mask : list bool) : DataFrame :=
  {| index_names := index_names df;
     columns := columns df;
     rows := (filter (fun rm => rm.2 = true) (zip (rows df) mask)).*1 |}.

(** [df.dropna(subset=...)]: the rows with no missing cell in [subset]. *)
Definition dropna (subset : list string) (df : DataFrame) : result DataFrame :=
  match filter (fun c => c ∉ columns df) subset with
  | [] =>
      Ok {| index_names := index_names df;
            columns := columns df;
            rows := filter (fun r => forallb (fun c => notna (cell c r)) subset = true)
                           (rows df) |}
  | missing => Raise (KeyError missing)
  end.

(** ** Group-by and aggregation *)

Inductive aggfun := Mean | Sum | Count | Min | Max | Std | Nunique.

Definition aggfun_name (f : aggfun) : string :=
  match f with
  | Mean => "mean" | Sum => "sum" | Count => "count" | Min => "min"
  | Max => "max" | Std => "std" | Nunique => "nunique"
  end.

(** The non-missing cells of a numeric Series. *)
Definition observed (s : list value) : result (list Qc) :=
  let! xs := as_numbers s in Ok (omap id xs).

Definition Qcleast (l : list Qc) : option Qc :=
  match l with
  | [] => None
  | x :: l' => Some (foldr (fun a b => if Qcltb a b then a else b) x l')
  end.

Definition Qcgreatest (l : list Qc) : option Qc :=
  match l with
  | [] => None
  | x :: l' => Some (foldr (fun a b => if Qcltb b a then a else b) x l')
  end.

(** Sample standard deviation (ddof = 1): NaN below two observations. *)
Definition Qcstd (l : list Qc) : option Qc :=
  match Qcmean l with
  | Some m =>
      if decide (2 <= length l)%nat
      then Some (sqrt (Qcsum ((fun x => (x - m) * (x - m))%Qc <$> l)
                        / qn (length l - 1))%Qc)
      else None
  | None => None
  end.

(** One aggregation of one column of one group. [count] and [nunique] look
    at the non-missing cells only, whatever their type. *)
Definition aggregate (f : aggfun) (s : list value) : result value :=
  match f with
  | Count => Ok (Int (Z.of_nat (length (filter (fun v => notna v = true) s))))
  | Nunique =>
      Ok (Int (Z.of_nat (length (remove_dups (filter (fun v => notna v = true) s)))))
  | Mean => let! xs := observed s in Ok (float_cell (Qcmean xs))
  | Sum => let! xs := observed s in Ok (Num (Qcsum xs))
  | Min => let! xs := observed s in Ok (float_cell (Qcleast xs))
  | Max => let! xs := observed s in Ok (float_cell (Qcgreatest xs))
  | Std => let! xs := observed s in Ok (float_cell (Qcstd xs))
  end.

(** Group keys are sorted; the order across types is by constructor. *)
Definition value_tag (v : value) : Z :=
  match v with
  | Null => 0 | Bool _ => 1 | Int _ => 2 | Num _ => 3
  | Str _ => 4 | Date _ => 5 | Timestamp _ => 6
  end.

Definition value_leb (a b : value) : bool :=
  match a, b with
  | Int x, Int y => x <=? y
  | Num x, Num y => Qcleb x y
  | Date x, Date y => x <=? y
  | Timestamp x, Timestamp y => x <=? y
  | Str x, Str y => bool_decide (String.leb x y = true)
  | Bool x, Bool y => implb x y
  | _, _ => value_tag a <=? value_tag b
  end.

Fixpoint key_leb (a b : list value) : bool :=
  match a, b with
  | [], _ => true
  | _ :: _, [] => false
  | x :: a', y :: b' => if decide (x = y) then key_leb a' b' else value_leb x y
  end.

Definition key_le (a b : list value) : Prop := key_leb a b = true.

#[global] Instance key_le_decision : RelDecision key_le.
Proof. intros a b. unfold key_le. apply _. Defined.

(** The labels of row [i] in the grouping Series. *)
Definition keys_at (by_ : list (list value)) (i : nat) : list value :=
  (fun s => default Null (s !! i)) <$> by_.

(** The rows paired with their group key; a row with a missing key label
    belongs to no group. *)
Definition keyed_rows (by_ : list (list value)) (df : DataFrame)
  : list (list value * (list value * pydict)) :=
  filter (fun kr => forallb notna kr.1 = true)
         (imap (fun i r => (keys_at by_ i, r)) (rows df)).

Definition group_keys (keyed : list (list value * (list value * pydict)))
  : list (list value) :=
  merge_sort key_le (remove_dups keyed.*1).

Definition group_of (keyed : list (list value * (list value * pydict)))
    (k : list value) : list (list value * pydict) :=
  (filter (fun kr => kr.1 = k) keyed).*2.

Definition agg_labels (spec : list (string * list aggfun)) : list (string * aggfun) :=
  spec ≫= (fun cf => (fun f => (cf.1, f)) <$> cf.2).

(** The column [(c, f)] of the aggregated frame is labelled [c_f], which is
    what joining the two levels with ["_"] gives. *)
Definition flat_label (cf : string * aggfun) : string :=
  cf.1 +:+ "_" +:+ aggfun_name cf.2.

Definition agg_group (spec : list (string * list aggfun))
    (group : list (list value * pydict)) : result pydict :=
  foldr (fun cf acc =>
           let! m := acc in
           let! v := aggregate cf.2 (cell cf.1 <$> group) in
           Ok (<[flat_label cf := v]> m))
        (Ok ∅) (agg_labels spec).

(** [df.groupby(by).agg(spec)] followed by the flattening of the two-level
    column labels. [by_] are named Series aligned with [df]; the result is
    indexed by the group keys, one level per Series, named after it. *)
Definition groupby_agg (df : DataFrame) (by_ : list (option string * list value))
    (spec : list (string * list aggfun)) : result DataFrame :=
  match filter (fun c => c ∉ columns df) spec.*1 with
  | [] =>
      let keyed := keyed_rows by_.*2 df in
      let! rs := mapM_result
                   (fun k => let! r := agg_group spec (group_of keyed k) in Ok (k, r))
                   (group_keys keyed) in
      Ok {| index_names := by_.*1;
            columns := list_to_set (flat_label <$> agg_labels spec);
            rows := rs |}
  | missing => Raise (KeyError missing)
  end.

(** The labels [reset_index] gives the index levels: the name of the level,
    or else ["index"] (["level_0"] when that is taken) for a single level
    and ["level_i"] for level [i] of several. *)
Definition level_labels (df : DataFrame) : list string :=
  match index_names df with
  | [o] => [default (if decide ("index" ∈ columns df) then "level_0" else "index") o]
  | names => imap (fun i o => default ("level_" +:+ pretty i) o) names
  end.

(** [DataFrame.insert(0, label, level)]: refuses a label that is already a
    column. *)
Definition insert_level (df : DataFrame) (il : nat * string) : result DataFrame :=
  if decide (il.2 ∈ columns df)
  then Raise (ValueError ("cannot insert " +:+ il.2 +:+ ", already exists"))
  else Ok {| index_names := index_names df;
             columns := columns df ∪ {[il.2]};
             rows := (fun r => (r.1, <[il.2 := default Null (r.1 !! il.1)]> r.2))
                       <$> rows df |}.

Fixpoint insert_levels (levels : list (nat * string)) (df : DataFrame)
  : result DataFrame :=
  match levels with
  | [] => Ok df
  | il :: levels' => let! df' := insert_level df il in insert_levels levels' df'
  end.

(** [df.reset_index()]: the index levels become columns, the last level
    first, and the index a RangeIndex. *)
Definition reset_index (df : DataFrame) : result DataFrame :=
  let! df' := insert_levels (reverse (imap pair (level_labels df))) df in
  Ok {| index_names := [None];
        columns := columns df';
        rows := imap (fun i r => ([Int (Z.of_nat i)], r.2)) (rows df') |}.

Definition rename_label (mapper : list (string * string)) (c : string) : string :=
  default c ((list_to_map mapper : gmap string string) !! c).

(** [df.rename(columns=mapper)] *)
Definition rename_columns (mapper : list (string * string)) (df : DataFrame)
  : DataFrame :=
  {| index_names := index_names df;
     columns := set_map (rename_label mapper) (columns df);
     rows := (fun r => (r.1, list_to_map
                               (prod_map (rename_label mapper) id <$> map_to_list r.2)))
               <$> rows df |}.

(** ** Rolling windows and Series reductions *)

(** The cells of the window of size [w] that ends at row [i]. *)
Definition window {A} (w i : nat) (s : list A) : list A :=
  drop (S i - w) (take (S i) s).

(** [s.rolling(window=w, min_periods=p).mean()]: the mean of the non-missing
    cells of each window, NaN when fewer than [p] of them are there. *)
Definition rolling_mean (w min_periods : nat) (s : list value) : result (list value) :=
  let! xs := as_numbers s in
  Ok (imap (fun i _ =>
              let obs := omap id (window w i xs) in
              if decide (min_periods <= length obs)%nat
              then float_cell (Qcmean obs) else Null) xs).

(** [s.mean()], which skips the missing cells. *)
Definition series_mean (s : list value) : result (option Qc) :=
  let! xs := observed s in Ok (Qcmean xs).

(** Float arithmetic with NaN: an operation on NaN is NaN, a comparison with
    NaN is false. *)
Definition nan_sub (a b : option Qc) : option Qc :=
  match a, b with Some x, Some y => Some (x - y)%Qc | _, _ => None end.

Definition nan_abs (a : option Qc) : option Qc := Qcabs <$> a.

Definition nan_scale (k : Z) (a : option Qc) : option Qc :=
  (fun x => (qz k * x)%Qc) <$> a.

Definition nan_gt (a b : option Qc) : bool :=
  match a, b with Some x, Some y => Qcltb y x | _, _ => false end.

(** ** [dags/utils/transformations.py] *)

(** [clean_dataset] receives its frame by reference and works on it in
    place before it rebinds [df]: the code runs in a state monad whose state
    is the frame object of the caller. *)
Definition M (A : Type) : Type := DataFrame -> result A * DataFrame.

Definition ret_M {A} (a : A) : M A := fun caller => (Ok a, caller).

Definition bind_M {A B} (m : M A) (k : A -> M B) : M B := fun caller =>
  match m caller with
  | (Ok a, caller') => k a caller'
  | (Raise e, caller') => (Raise e, caller')
  end.

Notation "'do!' x ':=' m 'in' k" := (bind_M m (fun x => k))
  (at level 10, x name, m at level 100, k at level 200).

Definition lift {A} (r : result A) : M A := fun caller => (r, caller).
Definition read_caller : M DataFrame := fun caller => (Ok caller, caller).
Definition write_caller (df : DataFrame) : M unit := fun _ => (Ok tt, df).

(** Lines 30-39: the frame the aggregates are computed on. [now] is
    [datetime.now().strftime('%Y-%m-%d')]. *)
Definition cleaning (now : string) : M DataFrame :=
  (* df.dropna(subset=['id', 'timestamp'], inplace=True) *)
  do! df := read_caller in
  do! df := lift (dropna ["id"; "timestamp"] df) in
  do! _ := write_caller df in
  (* df['timestamp'] = pd.to_datetime(df['timestamp'], errors='coerce') *)
  do! df := read_caller in
  do! ts := lift (getitem df "timestamp") in
  do! ts := lift (to_datetime ErrorsCoerce ts) in
  do! _ := write_caller (setitem df "timestamp" ts) in
  (* df = df[~df['timestamp'].isna()]: from here on [df] is a new frame *)
  do! df := read_caller in
  do! ts := lift (getitem df "timestamp") in
  let df := boolean_filter df (notna <$> ts) in
  (* df['processed_date'] = datetime.now().strftime('%Y-%m-%d') *)
  let df := setitem_scalar df "processed_date" (Str now) in
  ret_M df.

(** Lines 42-50. The grouping Series is [df['timestamp'].dt.date], which
    keeps the name of [df['timestamp']]. *)
Definition daily_aggregation (df : DataFrame) : result DataFrame :=
  let! ts := getitem df "timestamp" in
  let! daily_data :=
    groupby_agg df [(Some "timestamp", dt_date <$> ts)]
      [("value", [Mean; Sum; Count; Min; Max; Std]); ("id", [Nunique])] in
  let! daily_data := reset_index daily_data in
  Ok (rename_columns [("index", "date")] daily_data).

(** Lines 53-63. Both grouping Series come from [df['timestamp']] and are
    named after it. *)
Definition hourly_aggregation (df : DataFrame) : result DataFrame :=
  let! ts := getitem df "timestamp" in
  let! hourly_data :=
    groupby_agg df [(Some "timestamp", dt_date <$> ts); (Some "timestamp", dt_hour <$> ts)]
      [("value", [Mean; Sum; Count])] in
  let! hourly_data := reset_index hourly_data in
  Ok (rename_columns [("level_0", "date"); ("level_1", "hour")] hourly_data).

Definition clean_dataset (now : string)
  : M (list pydict * list pydict * nat) :=
  do! df := cleaning now in
  do! daily_data := lift (daily_aggregation df) in
  do! hourly_data := lift (hourly_aggregation df) in
  ret_M (to_dict_records daily_data, to_dict_records hourly_data, len df).

(** Lines 96-98 *)
Definition add_moving_average (df : DataFrame) : result DataFrame :=
  if decide (3 <= len df)%nat then
    let! means := getitem df "value_mean" in
    let! ma := rolling_mean 3 1 means in
    Ok (setitem df "value_mean_3day_ma" ma)
  else Ok df.

(** Lines 100-102 *)
Definition add_day_of_week (df : DataFrame) : result DataFrame :=
  if decide ("date" ∈ columns df) then
    let! dates := getitem df "date" in
    let! ts := to_datetime ErrorsRaise dates in
    Ok (setitem df "day_of_week" (dt_day_name <$> ts))
  else Ok df.

(** Lines 104-108 *)
Definition add_outlier_flag (df : DataFrame) : result DataFrame :=
  if decide ("value_mean" ∈ columns df ∧ "value_std" ∈ columns df) then
    let! means := getitem df "value_mean" in
    let! stds := getitem df "value_std" in
    let! mean_value := series_mean means in
    let! std_value := series_mean stds in
    let! ms := as_numbers means in
    Ok (setitem df "is_outlier"
          ((fun m => Bool (nan_gt (nan_abs (nan_sub m mean_value))
                                  (nan_scale 3 std_value))) <$> ms))
  else Ok df.

(** [now_iso] is [datetime.now().isoformat()]. *)
Definition enrich_dataset (now_iso : string) (daily_data : list pydict)
    (raw_count : Z) : result (list pydict) :=
  let df := DataFrame_of_records daily_data in
  let! df :=
    if negb (df_empty df) then
      let df := setitem_scalar df "total_records" (Int raw_count) in
      let! avg := true_div raw_count (len df) in
      let df := setitem_scalar df "avg_records_per_day" (Num avg) in
      let df := setitem_scalar df "processing_timestamp" (Str now_iso) in
      let! df := add_moving_average df in
      let! df := add_day_of_week df in
      add_outlier_flag df
    else Ok df in
  Ok (to_dict_records df).

(** ** The task callables of [dags/api_to_s3/api_to_s3_etl_dag.py] *)

(** [clean_data]: the frame is built inside the task, the three results
    are what the task returns. *)
Definition clean_data (now : string) (records : list pydict)
  : result (list pydict * list pydict * nat) :=
  (clean_dataset now (DataFrame_of_records records)).1.

Definition enrich_data (now_iso : string) (daily_data : list pydict)
    (raw_count : Z) : result (list pydict) :=
  enrich_dataset now_iso daily_data raw_count.

End Pandas.

(** What a run knows: [ds] is the logical date of the run, the value Airflow
    gives the macro [{{ ds }}] where it renders templates. *)
Record Context := { ds : string }.

(** The bucket: object key to object body (the JSON document). *)
Abbreviation bucket := (gmap string (list pydict)).

(** [S3Hook.load_file(filename, key, bucket_name, replace)] *)
Definition load_file (body : list pydict) (key : string) (replace : bool)
    (s3 : bucket) : result bucket :=
  if negb replace && bool_decide (is_Some (s3 !! key))
  then Raise (ValueError ("The key " +:+ key +:+ " already exists."))
  else Ok (<[key := body]> s3).

(** Lines 140-159. The body of a task callable is plain Python: the string
    literal is not a templated field, [execution_date] is the literal
    itself. *)
Definition upload_daily_data (ctx : Context) (data : list pydict) (s3 : bucket)
  : result (string * bucket) :=
  let execution_date := "{{ ds }}" in
  let s3_path := "daily/" +:+ execution_date +:+ "/daily_metrics.json" in
  let! s3 := load_file data s3_path true s3 in
  Ok (s3_path, s3).

(** Lines 161-180 *)
Definition upload_hourly_data (ctx : Context) (data : list pydict) (s3 : bucket)
  : result (string * bucket) :=
  let execution_date := "{{ ds }}" in
  let s3_path := "hourly/" +:+ execution_date +:+ "/hourly_metrics.json" in
  let! s3 := load_file data s3_path true s3 in
  Ok (s3_path, s3).

(** [default_args], lines 29-40; durations in seconds. *)
Record TaskArgs := {
  retries : nat;
  retry_delay : Z;
  retry_exponential_backoff : bool;
  max_retry_delay : Z;
  execution_timeout : Z
}.

Definition default_args : TaskArgs :=
  {| retries := 3;
     retry_delay := 5 * 60;
     retry_exponential_backoff := true;
     max_retry_delay := 60 * 60;
     execution_timeout := 120 * 60 |}.

(** ** The retry contract of a task *)

Record RetryPolicy := {
  max_attempts : nat;
  base_delay : Z;
  multiplier : Z;
  exponential_backoff : bool;
  max_delay : Z
}.

Inductive outcome := Success | Failure | TimedOut.

Inductive TaskState :=
| Pending
| Running (attempt : nat)
| Retrying (next_attempt : nat) (delay : Z)
| Succeeded
| Failed.

(** The run-scoped state of one task: where it is, how many attempts were
    made, which delays were waited for. *)
Record TaskRun := {
  state : TaskState;
  attempts_made : nat;
  delays : list Z
}.

(** Modelled from the spec: the delay of the retry policy of section 4.3,
    which the sources only configure ([default_args]): the code that
    applies the policy is not among them. Attempts are counted from 0, so
    that the first delay is the base delay. *)
Definition delay_before (p : RetryPolicy) (k : nat) : Z :=
  if exponential_backoff p
  then Z.min (base_delay p * multiplier p ^ Z.of_nat k) (max_delay p)
  else base_delay p.

(** Modelled from the spec: one transition of the task executor of section
    4.3, absent from the sources. An attempt that fails or times out is
    retried after the delay while attempts are left, and the task is
    [Failed] once they are exhausted. *)
Definition task_step (p : RetryPolicy) (callable : nat -> outcome) (r : TaskRun)
  : TaskRun :=
  match state r with
  | Pending =>
      match max_attempts p with
      | O => {| state := Failed; attempts_made := 0; delays := delays r |}
      | S _ => {| state := Running 0; attempts_made := attempts_made r;
                  delays := delays r |}
      end
  | Running k =>
      match callable k with
      | Success => {| state := Succeeded; attempts_made := S k; delays := delays r |}
      | Failure | TimedOut =>
          if decide (S k < max_attempts p)%nat
          then {| state := Retrying (S k) (delay_before p k);
                  attempts_made := S k; delays := delays r |}
          else {| state := Failed; attempts_made := S k; delays := delays r |}
      end
  | Retrying k d =>
      {| state := Running k; attempts_made := attempts_made r;
         delays := delays r ++ [d] |}
  | Succeeded | Failed => r
  end.

(** Modelled from the spec: a run of the executor of section 4.3, [n]
    transitions from [Pending]. *)
Definition task_run (p : RetryPolicy) (callable : nat -> outcome) (n : nat)
  : TaskRun :=
  Nat.iter n (task_step p callable)
           {| state := Pending; attempts_made := 0; delays := [] |}.

(** ** [kube_validate.py]

    A document as [yaml.safe_load_all] gives it. A mapping is kept by its
    string keys, the only keys the validator asks for; a document of any
    other Python type is, like the scalars and sequences here, no [dict]. *)

#[warnings="-register-all"] Inductive yaml :=
  | YNull
  | YBool (b : bool)
  | YInt (z : Z)
  | YFloat (q : Qc)
  | YStr (s : string)
  | YSeq (items : list yaml)
  | YMap (entries : gmap string yaml).

(** One entry of the report: [{"error": ..., "file": ...}]. *)
Record issue := { error : string; file : string }.

#[global] Instance issue_eq_decision : EqDecision issue.
Proof. solve_decision. Defined.

(** [str.startswith] and [str.endswith] *)
Definition startswith (s p : string) : bool := String.prefix p s.

Definition endswith (s suffix : string) : bool :=
  let n := String.length s in
  let k := String.length suffix in
  (k <=? n)%nat && String.eqb (substring (n - k) k s) suffix.

(** [os.path.join] of two components (posixpath). *)
Definition path_join (a b : string) : string :=
  if startswith b "/" then b
  else if String.eqb a "" || endswith a "/" then a +:+ b
  else a +:+ "/" +:+ b.

(** Line 11: the name under which a document is reported. *)
Definition doc_id (file_path : string) (index : option Z) : string :=
  match index with
  | Some index => file_path +:+ " (doc #" +:+ pretty (index + 1) +:+ ")"
  | None => file_path
  end.

(** Lines 7-30 *)
Definition validate_manifest (file_path : string) (content : yaml) (index : option Z)
  : list issue :=
  let doc_id := doc_id file_path index in
  match content with
  | YMap content =>
      let required_fields := ["apiVersion"; "kind"; "metadata"] in
      let errors :=
        (fun field => {| error := "Missing field: " +:+ field; file := doc_id |})
          <$> filter (fun field => content !! field = None) required_fields in
      match content !! "metadata" with
      | Some (YMap metadata) =>
          if decide (metadata !! "name" = None)
          then errors ++ [{| error := "Missing field: metadata.name"; file := doc_id |}]
          else errors
      | _ => errors ++ [{| error := "metadata is not a dictionary"; file := doc_id |}]
      end
  | _ => [{| error := "YAML is not a dictionary object"; file := doc_id |}]
  end.

(** What opening and parsing one file gives: its documents, or the text of
    the exception. *)
Inductive loaded :=
  | Docs (docs : list yaml)
  | LoadError (message : string).

(** Lines 32-46. [walk] is what [os.walk(directory)] yields, a directory
    and the names of its files at a time; [load] opens a path and parses
    it into the list of its documents. *)
Definition process_directory (walk : list (string * list string))
    (load : string -> loaded) : list issue :=
  '(root, files) ← walk;
  filename ← files;
  if endswith filename ".yaml" || endswith filename ".yml" then
    let full_path := path_join root filename in
    match load full_path with
    | Docs docs =>
        mjoin (imap (fun idx doc => validate_manifest full_path doc (Some (Z.of_nat idx)))
                    docs)
    | LoadError e => [{| error := e; file := full_path |}]
    end
  else [].

(** Lines 48-59: the object printed as JSON and the exit status. *)
Inductive report :=
  | StatusFailed (issues : list issue)
  | StatusSuccess (message : string).

Definition main (walk : list (string * list string)) (load : string -> loaded)
  : report * Z :=
  let issues := process_directory walk load in
  match issues with
  | [] => (StatusSuccess "All files are valid ✅", 0)
  | _ => (StatusFailed issues, 1)
  end.

(** ** Vocabulary of the statements *)

(** The fields of a daily aggregate, as lines 42-50 produce them. *)
Definition float_fields : list string :=
  ["value_mean"; "value_sum"; "value_min"; "value_max"; "value_std"].

Definition aggregate_fields : gset string :=
  list_to_set ("timestamp" :: "value_count" :: "id_nunique" :: float_fields).

(** The fields [enrich_dataset] may add. *)
Definition enrichment_fields : gset string :=
  list_to_set ["total_records"; "avg_records_per_day"; "processing_timestamp";
               "value_mean_3day_ma"; "day_of_week"; "is_outlier"].

Definition is_float (v : value) : bool :=
  match v with Num _ | Null => true | _ => false end.

Definition is_int (v : value) : bool :=
  match v with Int _ => true | _ => false end.

Definition is_date (v : value) : bool :=
  match v with Date _ => true | _ => false end.

Definition is_numeric (v : value) : bool :=
  match v with Num _ | Int _ | Null => true | _ => false end.



Definition field (k : string) (r : pydict) : value := default Null (r !! k).

(** A record with the shape of a daily aggregate. *)
Definition is_daily_aggregate (r : pydict) : bool :=
  bool_decide (dom r = aggregate_fields)
  && is_date (field "timestamp" r)
  && is_int (field "value_count" r)
  && is_int (field "id_nunique" r)
  && forallb (fun k => is_float (field k r)) float_fields.

(** A frame of raw records: the three columns are there and [value] holds
    numbers or nothing. *)
Definition is_raw_frame (df : DataFrame) : bool :=
  bool_decide ("id" ∈ columns df)
  && bool_decide ("timestamp" ∈ columns df)
  && bool_decide ("value" ∈ columns df)
  && forallb (fun r => is_numeric (cell "value" r)) (rows df).

(** The total of an integer field over records. *)
Definition field_total (k : string) (rs : list pydict) : Z :=
  foldr Z.add 0 ((fun r => match field k r with Int z => z | _ => 0 end) <$> rs).

(** The number of rows of a frame with a value in column [c]. *)
Definition count_present (c : string) (df : DataFrame) : nat :=
  length (filter (fun r => notna (cell c r) = true) (rows df)).

(** The calendar dates of the rows of a cleaned frame. *)
Definition dates_of (df : DataFrame) : list value :=
  (fun r => dt_date (cell "timestamp" r)) <$> rows df.

(** The number of records keyed by the date [d]. *)
Definition rows_keyed (d : value) (rs : list pydict) : nat :=
  length (filter (fun r => field "timestamp" r = d) rs).

(** What [pd.to_datetime(..., errors='coerce')] makes of a cell. *)
Definition coerced (parse : string -> option Z) (v : value) : value :=
  match to_datetime_cell parse ErrorsCoerce v with
  | Ok t => t
  | Raise _ => Null
  end.

(** The caller's frame once lines 30 and 33 have worked on it: the rows
    with an [id] and a [timestamp], the [timestamp] converted. *)
Definition worked_in_place (parse : string -> option Z) (df : DataFrame) : DataFrame :=
  {| index_names := index_names df;
     columns := columns df;
     rows := (fun r => (r.1, <["timestamp" := coerced parse (cell "timestamp" r)]> r.2))
               <$> filter (fun r => notna (cell "id" r) = true
                                    ∧ notna (cell "timestamp" r) = true) (rows df) |}.

(** The frame lines 30-36 leave in [df]: of the rows the caller keeps,
    those whose [timestamp] parsed. *)
Definition cleaned_frame (parse : string -> option Z) (df : DataFrame) : DataFrame :=
  {| index_names := index_names df;
     columns := columns df;
     rows := filter (fun r => notna (cell "timestamp" r) = true)
                    (rows (worked_in_place parse df)) |}.

(** The numbers of a Series of numbers, the missing cells left out. *)
Definition number_of (v : value) : option Qc :=
  match v with Int z => Some (qz z) | Num q => Some q | _ => None end.

Definition observations (s : list value) : list Qc := omap number_of s.

(** The daily aggregate of the rows [g] of one date. *)
Definition daily_aggregate_of (sqrt : Qc -> Qc) (date : value)
    (g : list (list value * pydict)) : pydict :=
  let xs := observations (cell "value" <$> g) in
  <["timestamp" := date]>
  (<["value_mean" := float_cell (Qcmean xs)]>
  (<["value_sum" := Num (Qcsum xs)]>
  (<["value_count" := Int (Z.of_nat (length (filter (fun v => notna v = true)
                                                   (cell "value" <$> g))))]>
  (<["value_min" := float_cell (Qcleast xs)]>
  (<["value_max" := float_cell (Qcgreatest xs)]>
  (<["value_std" := float_cell (Qcstd sqrt xs)]>
  (<["id_nunique" := Int (Z.of_nat (length (remove_dups
        (filter (fun v => notna v = true) (cell "id" <$> g)))))]> ∅))))))).

(** The rows of a frame grouped by the calendar date of their
    [timestamp]. *)
Definition keyed_by_date (df : DataFrame)
  : list (list value * (list value * pydict)) :=
  keyed_rows [dt_date <$> (cell "timestamp" <$> rows df)] df.

(** The claim's words for the moving average: the mean of the row's own
    [value_mean] and of those of the up to two rows before it, over the
    values that are there. *)
Definition present (vs : list (option value)) : list Qc :=
  omap (fun o => match o with Some (Num q) => Some q | Some (Int z) => Some (qz z)
                         | _ => None end) vs.

Definition trailing_mean (ms : list value) (i : nat) : value :=
  let own := ms !! i in
  let before1 := match i with S j => ms !! j | O => None end in
  let before2 := match i with S (S j) => ms !! j | _ => None end in
  float_cell (Qcmean (present [before2; before1; own])).

(** The claim's words for the outlier flag. *)
Definition deviates (m : value) (ms ss : list value) : bool :=
  match present [Some m], Qcmean (present (Some <$> ms)),
        Qcmean (present (Some <$> ss)) with
  | [x], Some mean_of_means, Some mean_of_stds =>
      Qcltb (qz 3 * mean_of_stds)%Qc (Qcabs (x - mean_of_means)%Qc)
  | _, _, _ => false
  end.

(** The enriched record of a daily aggregate in the words of the data
    model: the run's totals, the enrichment instant, the moving average
    once three rows are there, the outlier flag. *)
Definition enriched_record (now_iso : string) (raw_count : Z) (daily : list pydict)
    (i : nat) (r : pydict) : pydict :=
  let ms := field "value_mean" <$> daily in
  let ss := field "value_std" <$> daily in
  let r1 := <["processing_timestamp" := Str now_iso]>
            (<["avg_records_per_day" := Num (qz raw_count / qn (length daily))%Qc]>
            (<["total_records" := Int raw_count]> r)) in
  let r2 := if decide (3 <= length daily)%nat
            then <["value_mean_3day_ma" := trailing_mean ms i]> r1 else r1 in
  <["is_outlier" := Bool (deviates (field "value_mean" r) ms ss)]> r2.

(** A manifest with the four fields the validator asks for. *)
Definition well_formed (content : yaml) : Prop :=
  exists entries metadata,
    content = YMap entries
    /\ is_Some (entries !! "apiVersion")
    /\ is_Some (entries !! "kind")
    /\ entries !! "metadata" = Some (YMap metadata)
    /\ is_Some (metadata !! "name").

Definition is_manifest_file (filename : string) : bool :=
  endswith filename ".yaml" || endswith filename ".yml".

(** Every manifest file met on the walk loads, and each of its documents is
    well formed. *)
Definition all_manifests_valid (walk : list (string * list string))
    (load : string -> loaded) : Prop :=
  forall root files filename,
    (root, files) ∈ walk -> filename ∈ files -> is_manifest_file filename = true ->
    exists docs, load (path_join root filename) = Docs docs /\ Forall well_formed docs.

(** ** Sample data

    [iso_parse] reads the ISO-8601 forms [YYYY-MM-DD], [YYYY-MM-DDTHH:MM:SS]
    and [YYYY-MM-DD HH:MM:SS], all of which pandas accepts; it stands for
    pandas' parser in the examples. *)

Definition digit (c : ascii) : option Z :=
  let n := Z.of_nat (nat_of_ascii c) in
  if (48 <=? n) && (n <=? 57) then Some (n - 48) else None.

Fixpoint number (cs : list ascii) (acc : Z) : option Z :=
  match cs with
  | [] => Some acc
  | c :: cs' => d ← digit c; number cs' (10 * acc + d)
  end.

(** Days from 1970-01-01 to the given day of the proleptic Gregorian
    calendar. *)
Definition days_from_civil (y m d : Z) : Z :=
  let y' := if m <=? 2 then y - 1 else y in
  let era := y' `div` 400 in
  let yoe := y' - era * 400 in
  let mp := (m + 9) `mod` 12 in
  let doy := (153 * mp + 2) `div` 5 + d - 1 in
  let doe := yoe * 365 + yoe `div` 4 - yoe `div` 100 + doy in
  era * 146097 + doe - 719468.

Definition parse_date (cs : list ascii) : option Z :=
  match cs with
  | [y1; y2; y3; y4; "-"%char; m1; m2; "-"%char; d1; d2] =>
      y ← number [y1; y2; y3; y4] 0;
      m ← number [m1; m2] 0;
      d ← number [d1; d2] 0;
      if (1 <=? m) && (m <=? 12) && (1 <=? d) && (d <=? 31)
      then Some (days_from_civil y m d) else None
  | _ => None
  end.

Definition parse_time (cs : list ascii) : option Z :=
  match cs with
  | [h1; h2; ":"%char; m1; m2; ":"%char; s1; s2] =>
      h ← number [h1; h2] 0;
      m ← number [m1; m2] 0;
      s ← number [s1; s2] 0;
      if (h <? 24) && (m <? 60) && (s <? 60)
      then Some (((h * 60 + m) * 60 + s) * 1000000000) else None
  | _ => None
  end.

Definition iso_parse (s : string) : option Z :=
  let cs := list_ascii_of_string s in
  d ← parse_date (take 10 cs);
  match drop 10 cs with
  | [] => Some (d * ns_per_day)
  | sep :: cs' =>
      if bool_decide (sep = "T"%char ∨ sep = " "%char)
      then t ← parse_time cs'; Some (d * ns_per_day + t)
      else None
  end.

(** A stand-in for the square root: the integer square root of the scaled
    numerator. *)
Definition isqrt (x : Qc) : Qc :=
  Q2Qc (Z.sqrt (Qnum (this x) * Zpos (Qden (this x)) * 1000000)
        # (Qden (this x) * 1000)).

Definition raw_record (id : Z) (timestamp : string) (v : Z) : pydict :=
  {[ "id" := Int id; "timestamp" := Str timestamp; "value" := Num (qz v) ]}.

(** 25 raw records over two calendar days, 3 of them with a timestamp that
    does not parse. *)
Definition scenario_records : list pydict :=
  imap (fun i h => raw_record (Z.of_nat i) ("2025-05-01T" +:+ h +:+ ":15:00") (Z.of_nat i))
       ["00"; "01"; "02"; "03"; "04"; "05"; "06"; "07"; "08"; "09"; "10"; "11"]
  ++ imap (fun i h => raw_record (100 + Z.of_nat i) ("2025-05-02 " +:+ h +:+ ":30:00") 7)
       ["09"; "09"; "10"; "11"; "12"; "13"; "14"; "15"; "16"; "17"]
  ++ [raw_record 200 "yesterday-ish" 1; raw_record 201 "2025-13-45" 2;
      raw_record 202 "" 3].

(** One well-formed record. *)
Definition single_record : list pydict :=
  [raw_record 1 "2025-05-01T10:00:00" 5].

(** Two records, the second without its [id]. *)
Definition records_missing_id : list pydict :=
  [raw_record 1 "2025-05-01T10:00:00" 5;
   <["id" := Null]> (raw_record 2 "2025-05-01T11:00:00" 6)].

(** A payload none of whose records has the key [id]. *)
Definition records_without_id : list pydict :=
  [delete "id" (raw_record 1 "2025-05-01T10:00:00" 5);
   delete "id" (raw_record 2 "2025-05-01T11:00:00" 6)].

(** One record with an [id] and a [timestamp] but no [value]. *)
Definition records_missing_value : list pydict :=
  [<["value" := Null]> (raw_record 1 "2025-05-01T10:00:00" 0)].

(** A daily aggregate of two records. *)
Definition sample_aggregate (date mean : Z) : pydict :=
  {[ "timestamp" := Date date;
     "value_mean" := Num (qz mean);
     "value_sum" := Num (qz (2 * mean));
     "value_count" := Int 2;
     "value_min" := Num (qz (mean - 1));
     "value_max" := Num (qz (mean + 1));
     "value_std" := Num (qz 1);
     "id_nunique" := Int 2 ]}.

Definition three_aggregates : list pydict :=
  [sample_aggregate 20209 4; sample_aggregate 20210 8; sample_aggregate 20211 6].

(** The daily aggregate of a date with one record: no standard
    deviation. *)
Definition lone_aggregate (date mean : Z) : pydict :=
  {[ "timestamp" := Date date;
     "value_mean" := Num (qz mean);
     "value_sum" := Num (qz mean);
     "value_count" := Int 1;
     "value_min" := Num (qz mean);
     "value_max" := Num (qz mean);
     "value_std" := Null;
     "id_nunique" := Int 1 ]}.

Definition lone_aggregates : list pydict :=
  [lone_aggregate 20209 4; lone_aggregate 20210 400].


(** Rows that have a standard deviation but no mean. *)
Definition rows_without_mean (n : nat) : list pydict :=
  replicate n {[ "value_std" := Num (qz 1) ]}.

(** Three attempts, the delays of [default_args], doubling. *)
Definition three_attempts : RetryPolicy :=
  {| max_attempts := 3;
     base_delay := retry_delay default_args;
     multiplier := 2;
     exponential_backoff := retry_exponential_backoff default_args;
     max_delay := max_retry_delay default_args |}.

Definition always_failing (k : nat) : outcome := Failure.

(** Manifests: a deployment, a service without [metadata], and a directory
    with two manifest files and a text file beside them. *)
Definition deployment : yaml :=
  YMap (<["apiVersion" := YStr "apps/v1"]>
       (<["kind" := YStr "Deployment"]>
       (<["metadata" := YMap {[ "name" := YStr "web" ]}]> ∅))).

Definition service_entries : gmap string yaml :=
  <["apiVersion" := YStr "v1"]> (<["kind" := YStr "Service"]> ∅).

Definition no_metadata : yaml := YMap service_entries.

Definition manifests_walk : list (string * list string) :=
  [("k8s", ["web.yaml"; "README.md"]); ("k8s/base", ["svc.yml"])].

Definition manifests_load (path : string) : loaded :=
  if String.eqb path "k8s/web.yaml" then Docs [deployment; deployment]
  else if String.eqb path "k8s/base/svc.yml" then Docs [deployment]
  else LoadError "[Errno 2] No such file or directory".

(** The same directory when the text file holds something else. *)
Definition manifests_load' (path : string) : loaded :=
  if String.eqb path "k8s/README.md" then Docs [YNull] else manifests_load path.

(** * Facts about the embedded code *)

Section Facts.
Variable parse : string -> option Z.
Variable sqrt : Qc -> Qc.

Lemma mapM_result_total {A B} (f : A -> result B) (g : A -> B) l :
  (forall x, x ∈ l -> f x = Ok (g x)) -> mapM_result f l = Ok (g <$> l).
Proof.
  induction l as [|x l IH]; intros H; [done|]. cbn.
  rewrite (H x) by left. cbn. rewrite IH; [done|].
  intros y Hy. apply H. by right.
Qed.

Lemma mapM_result_raise {A B} (f : A -> result B) l e :
  mapM_result f l = Raise e -> exists x, x ∈ l /\ f x = Raise e.
Proof.
  induction l as [|x l IH]; [done|]. cbn.
  destruct (f x) as [y|e'] eqn:E; cbn.
  - destruct (mapM_result f l) as [ys|e'']; cbn; [done|].
    intros [= ->]. destruct IH as (z & ? & ?); [done|].
    exists z. split; [by right|done].
  - intros [= ->]. exists x. split; [left|done].
Qed.

Lemma mapM_result_length {A B} (f : A -> result B) l l' :
  mapM_result f l = Ok l' -> length l' = length l.
Proof.
  revert l'. induction l as [|x l IH]; intros l'; cbn.
  - by intros [= <-].
  - destruct (f x); cbn; [|done].
    destruct (mapM_result f l); cbn; [|done].
    intros [= <-]. cbn. f_equal. by apply IH.
Qed.

Lemma to_datetime_cell_coerce v :
  to_datetime_cell parse ErrorsCoerce v = Ok (coerced parse v).
Proof.
  unfold coerced. destruct v; cbn; try done. by destruct (parse s).
Qed.

Lemma to_datetime_coerce s :
  to_datetime parse ErrorsCoerce s = Ok (coerced parse <$> s).
Proof.
  apply mapM_result_total. intros; apply to_datetime_cell_coerce.
Qed.

Lemma coerced_timestamp_or_null v :
  coerced parse v = Null \/ exists ns, coerced parse v = Timestamp ns.
Proof.
  unfold coerced. destruct v; cbn; eauto. destruct (parse s); eauto.
Qed.

Lemma zip_with_fmap_same {A B C} (f : A -> B -> C) (g : A -> B) l :
  zip_with f l (g <$> l) = (fun x => f x (g x)) <$> l.
Proof. induction l; cbn; congruence. Qed.

Lemma filter_zip_mask {A} (p : A -> bool) (l : list A) :
  (filter (fun rm : A * bool => rm.2 = true) (zip l (p <$> l))).*1
  = filter (fun x => p x = true) l.
Proof.
  induction l as [|x l IH]; [done|].
  change (zip (x :: l) (p <$> x :: l)) with ((x, p x) :: zip l (p <$> l)).
  rewrite !filter_cons. cbn [snd].
  destruct (decide (p x = true)); [rewrite fmap_cons|]; by rewrite IH.
Qed.

Lemma cell_insert_eq c v (r : list value * pydict) :
  cell c (r.1, <[c := v]> r.2) = v.
Proof. unfold cell. cbn. by rewrite lookup_insert_eq. Qed.

Lemma cell_insert_ne c c' v (r : list value * pydict) :
  c <> c' -> cell c' (r.1, <[c := v]> r.2) = cell c' r.
Proof. intros. unfold cell. cbn. by rewrite lookup_insert_ne. Qed.

Lemma dropna_id_timestamp df :
  "id" ∈ columns df -> "timestamp" ∈ columns df ->
  dropna ["id"; "timestamp"] df
  = Ok {| index_names := index_names df; columns := columns df;
          rows := filter (fun r => notna (cell "id" r) = true
                                   ∧ notna (cell "timestamp" r) = true) (rows df) |}.
Proof.
  intros Hid Hts. unfold dropna.
  rewrite !filter_cons, filter_nil.
  rewrite !decide_False by (intros ?; done).
  do 2 f_equal. apply list_filter_iff. intros r. cbn.
  rewrite andb_true_r, andb_true_iff. done.
Qed.

Lemma dropna_missing df :
  ¬ ("id" ∈ columns df ∧ "timestamp" ∈ columns df) ->
  exists missing, dropna ["id"; "timestamp"] df = Raise (KeyError missing).
Proof.
  intros H. unfold dropna. rewrite !filter_cons, filter_nil.
  destruct (decide ("id" ∉ columns df)); [eauto|].
  destruct (decide ("timestamp" ∉ columns df)); [eauto|].
  destruct H. split; by apply dec_stable.
Qed.

(** Lines 30-39 on a frame that has the two columns. *)
Lemma cleaning_ok now df :
  "id" ∈ columns df -> "timestamp" ∈ columns df ->
  cleaning parse now df
  = (Ok (setitem_scalar (cleaned_frame parse df) "processed_date" (Str now)),
     worked_in_place parse df).
Proof.
  intros Hid Hts. unfold cleaning, bind_M, read_caller, lift, write_caller, ret_M.
  rewrite dropna_id_timestamp by done.
  unfold getitem at 1. cbn [columns rows].
  rewrite decide_True by done.
  rewrite to_datetime_coerce.
  assert (Hw : setitem {| index_names := index_names df; columns := columns df;
                 rows := filter (fun r => notna (cell "id" r) = true
                                   ∧ notna (cell "timestamp" r) = true) (rows df) |}
                 "timestamp" (coerced parse <$> (cell "timestamp" <$>
                    filter (fun r => notna (cell "id" r) = true
                                   ∧ notna (cell "timestamp" r) = true) (rows df)))
               = worked_in_place parse df).
  { unfold setitem, worked_in_place. cbn [index_names columns rows]. f_equal.
    - apply set_eq. intros c. rewrite elem_of_union, elem_of_singleton.
      split; [by intros [?| ->]|by left].
    - rewrite <- list_fmap_compose. by rewrite zip_with_fmap_same. }
  rewrite Hw. unfold getitem. rewrite decide_True by done.
  unfold boolean_filter. rewrite <- list_fmap_compose.
  rewrite (filter_zip_mask (fun r => notna (cell "timestamp" r))).
  done.
Qed.

Lemma cleaning_raise now df :
  ¬ ("id" ∈ columns df ∧ "timestamp" ∈ columns df) ->
  exists missing, cleaning parse now df = (Raise (KeyError missing), df).
Proof.
  intros H. destruct (dropna_missing df H) as [m Hm]. exists m.
  unfold cleaning, bind_M, read_caller, lift. by rewrite Hm.
Qed.


Lemma filter_ext_in {A} (P Q : A -> Prop) `{!forall x, Decision (P x)}
    `{!forall x, Decision (Q x)} (l : list A) :
  (forall x, x ∈ l -> P x <-> Q x) -> filter P l = filter Q l.
Proof.
  induction l as [|x l IH]; intros Hext; [done|].
  rewrite !filter_cons.
  assert (Hx : P x <-> Q x) by (apply Hext; left).
  rewrite IH by (intros y Hy; apply Hext; by right).
  destruct (decide (P x)), (decide (Q x)); tauto.
Qed.

Lemma filter_fmap {A B} (f : A -> B) (P : B -> Prop) `{!forall y, Decision (P y)}
    (l : list A) :
  filter P (f <$> l) = f <$> filter (fun x => P (f x)) l.
Proof.
  induction l as [|x l IH]; [done|].
  rewrite fmap_cons, !filter_cons, IH. by destruct (decide (P (f x))).
Qed.

Lemma mapM_result_ext {A B} (f g : A -> result B) l :
  (forall x, x ∈ l -> f x = g x) -> mapM_result f l = mapM_result g l.
Proof.
  induction l as [|x l IH]; intros H; [done|]. cbn.
  rewrite (H x) by left. rewrite IH; [done|].
  intros y Hy. apply H. by right.
Qed.

(** Aggregation reads the cells of the aggregated columns only. *)
Lemma agg_group_cells spec (g g' : list (list value * pydict)) :
  (forall c, c ∈ spec.*1 -> cell c <$> g = cell c <$> g') ->
  agg_group sqrt spec g = agg_group sqrt spec g'.
Proof.
  intros H. unfold agg_group.
  assert (Hl : forall cf, cf ∈ agg_labels spec -> cf.1 ∈ spec.*1).
  { intros cf. unfold agg_labels. rewrite list_elem_of_bind.
    intros (cfs & Hcf & Hin). apply list_elem_of_fmap in Hcf as (f & -> & _).
    cbn. by apply list_elem_of_fmap_2. }
  induction (agg_labels spec) as [|cf l IH]; [done|]. cbn.
  rewrite IH by (intros; apply Hl; by right).
  rewrite (H cf.1) by (apply Hl; left). done.
Qed.

Lemma keyed_rows_fmap by_ df (upd : list value * pydict -> list value * pydict) :
  keyed_rows by_ {| index_names := index_names df; columns := columns df;
                    rows := upd <$> rows df |}
  = (fun kr => (kr.1, upd kr.2)) <$> keyed_rows by_ df.
Proof.
  unfold keyed_rows. cbn [rows].
  rewrite imap_fmap.
  assert (Hi : imap (fun n => (fun r => (keys_at by_ n, r)) ∘ upd) (rows df)
               = (fun kr => (kr.1, upd kr.2))
                   <$> imap (fun i r => (keys_at by_ i, r)) (rows df)).
  { rewrite fmap_imap. by apply imap_ext. }
  rewrite Hi. by rewrite filter_fmap.
Qed.

Lemma groupby_agg_setitem_scalar df by_ spec c v :
  c ∉ spec.*1 ->
  groupby_agg sqrt (setitem_scalar df c v) by_ spec = groupby_agg sqrt df by_ spec.
Proof.
  intros Hc. unfold groupby_agg.
  assert (Hf : filter (fun c' => c' ∉ columns (setitem_scalar df c v)) spec.*1
               = filter (fun c' => c' ∉ columns df) spec.*1).
  { apply filter_ext_in. intros c' Hc'. cbn.
    rewrite elem_of_union, elem_of_singleton.
    split; [intros Hn Hin; apply Hn; by left|].
    intros Hn [Hin| ->]; [by apply Hn|by apply Hc]. }
  rewrite Hf. destruct (filter (fun c' => c' ∉ columns df) spec.*1); [|done].
  assert (Hk : keyed_rows by_.*2 (setitem_scalar df c v)
               = (fun kr => (kr.1, (kr.2.1, <[c := v]> kr.2.2))) <$> keyed_rows by_.*2 df).
  { apply (keyed_rows_fmap by_.*2 df (fun r => (r.1, <[c := v]> r.2))). }
  rewrite Hk. set (keyed := keyed_rows by_.*2 df).
  assert (Hg : group_keys ((fun kr : list value * (list value * pydict) =>
                   (kr.1, (kr.2.1, <[c := v]> kr.2.2))) <$> keyed) = group_keys keyed).
  { unfold group_keys. by rewrite <- list_fmap_compose. }
  rewrite Hg.
  erewrite mapM_result_ext; [reflexivity|].
  intros k _. cbn beta.
  assert (Hgo : group_of ((fun kr : list value * (list value * pydict) =>
                   (kr.1, (kr.2.1, <[c := v]> kr.2.2))) <$> keyed) k
                = (fun r => (r.1, <[c := v]> r.2)) <$> group_of keyed k).
  { unfold group_of.
    rewrite (filter_fmap _ (fun kr : list value * (list value * pydict) => kr.1 = k)).
    cbn [fst]. by rewrite <- !list_fmap_compose. }
  rewrite Hgo.
  rewrite (agg_group_cells spec _ (group_of keyed k)); [done|].
  intros c' Hc'. rewrite <- list_fmap_compose. apply list_fmap_ext.
  intros i r _. cbn. apply cell_insert_ne. intros ->. done.
Qed.

Lemma groupby_agg_index_names df by_ spec g :
  groupby_agg sqrt df by_ spec = Ok g -> index_names g = by_.*1.
Proof.
  unfold groupby_agg. destruct (filter (fun c => c ∉ columns df) spec.*1); [|done].
  destruct (mapM_result _ _); cbn; [|done]. by intros [= <-].
Qed.

Lemma insert_level_taken df il :
  il.2 ∈ columns df ->
  insert_level df il
  = Raise (ValueError ("cannot insert " +:+ il.2 +:+ ", already exists")).
Proof. intros H. unfold insert_level. by rewrite decide_True. Qed.

Lemma insert_level_inv df il r :
  insert_level df il = r ->
  r = Raise (ValueError ("cannot insert " +:+ il.2 +:+ ", already exists"))
  \/ exists df', r = Ok df' /\ il.2 ∈ columns df'.
Proof.
  intros <-. unfold insert_level. destruct (decide (il.2 ∈ columns df)); [by left|].
  right. eexists. split; [done|]. cbn. apply elem_of_union_r. by apply elem_of_singleton.
Qed.

(** Two index levels with one name: inserting the second one finds the
    label of the first among the columns. *)
Lemma reset_index_same_name df a :
  index_names df = [Some a; Some a] ->
  reset_index df = Raise (ValueError ("cannot insert " +:+ a +:+ ", already exists")).
Proof.
  intros Hn. unfold reset_index, level_labels. rewrite Hn.
  change (reverse (imap pair (imap (fun i o => default ("level_" +:+ pretty i) o)
                                   [Some a; Some a])))
    with [(1%nat, a); (0%nat, a)].
  cbn [insert_levels].
  destruct (insert_level_inv df (1%nat, a) _ eq_refl) as [->|(df' & -> & Hin)]; [done|].
  cbn [bind]. by rewrite (insert_level_taken df' (0%nat, a)).
Qed.

Lemma hourly_aggregation_raises df :
  exists e, hourly_aggregation sqrt df = Raise e.
Proof.
  unfold hourly_aggregation.
  destruct (getitem df "timestamp") as [ts|e]; cbn; [|eauto].
  destruct (groupby_agg _ _ _ _) as [g|e] eqn:Hg; cbn; [|eauto].
  apply groupby_agg_index_names in Hg. cbn in Hg.
  rewrite (reset_index_same_name g "timestamp" Hg). cbn. eauto.
Qed.

Lemma getitem_setitem_scalar_ne df c c' v :
  c <> c' -> c' ∈ columns df ->
  getitem (setitem_scalar df c v) c' = getitem df c'.
Proof.
  intros Hne Hin. unfold getitem. cbn [columns rows setitem_scalar].
  rewrite !decide_True; [|done|by apply elem_of_union_l].
  f_equal. rewrite <- list_fmap_compose. apply list_fmap_ext.
  intros i r _. cbn. by apply cell_insert_ne.
Qed.

Lemma getitem_setitem_scalar_raise df c c' v :
  c <> c' -> c' ∉ columns df ->
  getitem (setitem_scalar df c v) c' = Raise (KeyError [c']).
Proof.
  intros Hne Hin. unfold getitem. cbn [columns setitem_scalar].
  rewrite decide_False; [done|].
  rewrite elem_of_union, elem_of_singleton. intros [?| ->]; done.
Qed.

(** The aggregates do not read the column [processed_date]. *)
Lemma daily_aggregation_processed_date df v :
  daily_aggregation sqrt (setitem_scalar df "processed_date" v)
  = daily_aggregation sqrt df.
Proof.
  unfold daily_aggregation.
  destruct (decide ("timestamp" ∈ columns df)) as [Hin|Hin].
  - rewrite getitem_setitem_scalar_ne by done.
    destruct (getitem df "timestamp"); cbn; [|done].
    rewrite groupby_agg_setitem_scalar; [done|].
    cbn. rewrite !elem_of_cons, elem_of_nil. intros [?|[?|?]]; done.
  - rewrite getitem_setitem_scalar_raise by done.
    unfold getitem. by rewrite decide_False.
Qed.

Lemma hourly_aggregation_processed_date df v :
  hourly_aggregation sqrt (setitem_scalar df "processed_date" v)
  = hourly_aggregation sqrt df.
Proof.
  unfold hourly_aggregation.
  destruct (decide ("timestamp" ∈ columns df)) as [Hin|Hin].
  - rewrite getitem_setitem_scalar_ne by done.
    destruct (getitem df "timestamp"); cbn; [|done].
    rewrite groupby_agg_setitem_scalar; [done|].
    cbn. rewrite !elem_of_cons, elem_of_nil. intros [?|?]; done.
  - rewrite getitem_setitem_scalar_raise by done.
    unfold getitem. by rewrite decide_False.
Qed.

(** [clean_dataset] in terms of its stages, on a frame with the two
    columns. *)
Lemma clean_dataset_unfold now df :
  "id" ∈ columns df -> "timestamp" ∈ columns df ->
  clean_dataset parse sqrt now df
  = (let! daily_data := daily_aggregation sqrt (cleaned_frame parse df) in
     let! hourly_data := hourly_aggregation sqrt (cleaned_frame parse df) in
     Ok (to_dict_records daily_data, to_dict_records hourly_data,
         len (cleaned_frame parse df)),
     worked_in_place parse df).
Proof.
  intros Hid Hts. unfold clean_dataset, bind_M at 1.
  rewrite cleaning_ok by done.
  unfold bind_M, lift, ret_M.
  rewrite daily_aggregation_processed_date, hourly_aggregation_processed_date.
  destruct (daily_aggregation sqrt (cleaned_frame parse df)); cbn; [|done].
  destruct (hourly_aggregation sqrt (cleaned_frame parse df)); cbn; [|done].
  unfold len, setitem_scalar. cbn [rows]. by rewrite length_fmap.
Qed.

Lemma clean_dataset_cleaning_raise now df e caller :
  cleaning parse now df = (Raise e, caller) ->
  clean_dataset parse sqrt now df = (Raise e, caller).
Proof. intros H. unfold clean_dataset, bind_M at 1. by rewrite H. Qed.

(** X1. [clean_dataset] never returns: whatever the frame it is given, an
    exception escapes it (line 62 raises when nothing has before). *)
Lemma clean_dataset_never_returns now df :
  exists e, (clean_dataset parse sqrt now df).1 = Raise e.
Proof.
  destruct (decide ("id" ∈ columns df ∧ "timestamp" ∈ columns df)) as [[Hid Hts]|Hn].
  - rewrite clean_dataset_unfold by done. cbn [fst].
    destruct (daily_aggregation _ _); cbn; [|eauto].
    destruct (hourly_aggregation_raises (cleaned_frame parse df)) as [e He].
    rewrite He. cbn. eauto.
  - destruct (cleaning_raise now df Hn) as [m Hm]. exists (KeyError m).
    by rewrite (clean_dataset_cleaning_raise _ _ _ _ Hm).
Qed.

(** The outcome and the caller's frame do not depend on the clock. *)
Lemma clean_dataset_clock now now' df :
  clean_dataset parse sqrt now df = clean_dataset parse sqrt now' df.
Proof.
  destruct (decide ("id" ∈ columns df ∧ "timestamp" ∈ columns df)) as [[Hid Hts]|Hn].
  - by rewrite !clean_dataset_unfold.
  - destruct (cleaning_raise now df Hn) as [m Hm].
    destruct (cleaning_raise now' df Hn) as [m' Hm'].
    rewrite (clean_dataset_cleaning_raise _ _ _ _ Hm).
    rewrite (clean_dataset_cleaning_raise _ _ _ _ Hm').
    unfold cleaning, bind_M, read_caller, lift in Hm, Hm'.
    destruct (dropna_missing df Hn) as [m0 H0]. rewrite H0 in Hm, Hm'. congruence.
Qed.

Lemma as_numbers_numeric s :
  Forall (fun v => is_numeric v = true) s -> as_numbers s = Ok (number_of <$> s).
Proof.
  intros Hnum. apply mapM_result_total.
  intros v Hv. rewrite Forall_forall in Hnum. specialize (Hnum v Hv). by destruct v.
Qed.

Lemma omap_id_fmap {A B} (f : A -> option B) (l : list A) :
  omap id (f <$> l) = omap f l.
Proof. induction l as [|x l IH]; [done|]. cbn. rewrite IH. by destruct (f x). Qed.

Lemma observed_numeric s :
  Forall (fun v => is_numeric v = true) s -> observed s = Ok (observations s).
Proof.
  intros Hnum. unfold observed. rewrite as_numbers_numeric by done. cbn.
  by rewrite omap_id_fmap.
Qed.

Lemma agg_group_daily g :
  Forall (fun v => is_numeric v = true) (cell "value" <$> g) ->
  agg_group sqrt [("value", [Mean; Sum; Count; Min; Max; Std]); ("id", [Nunique])] g
  = Ok (delete "timestamp" (daily_aggregate_of sqrt Null g)).
Proof.
  intros H. unfold agg_group, daily_aggregate_of. cbn.
  rewrite (observed_numeric _ H). cbn.
  reflexivity.
Qed.

Lemma imap_reindex_snd {A B C} (f : nat -> A) (l : list (B * C)) :
  (imap (fun i r => (f i, r.2)) l).*2 = l.*2.
Proof.
  revert f. induction l as [|x l IH]; intros f; [done|].
  rewrite imap_cons, !fmap_cons. cbn. f_equal. apply (IH (f ∘ S)).
Qed.

Lemma fmap_imap_reindex_snd {A B C D} (h : C -> D) (f : nat -> A) (l : list (B * C)) :
  ((fun r => (r.1, h r.2)) <$> imap (fun i r => (f i, r.2)) l).*2 = h <$> l.*2.
Proof.
  revert f. induction l as [|x l IH]; intros f; [done|].
  rewrite imap_cons, !fmap_cons. cbn. f_equal. apply (IH (f ∘ S)).
Qed.

Lemma keyed_rows_in by_ df kr :
  kr ∈ keyed_rows by_ df -> kr.2 ∈ rows df.
Proof.
  unfold keyed_rows. rewrite list_elem_of_filter. intros [_ H].
  apply elem_of_lookup_imap in H as (i & r & -> & Hr). cbn.
  by eapply list_elem_of_lookup_2.
Qed.

Lemma group_of_in keyed k r :
  r ∈ group_of keyed k -> exists kr, kr ∈ keyed /\ kr.1 = k /\ kr.2 = r.
Proof.
  unfold group_of. rewrite list_elem_of_fmap. intros (kr & -> & H).
  apply list_elem_of_filter in H as [? ?]. eauto.
Qed.

Lemma daily_aggregation_records df :
  "timestamp" ∈ columns df -> "value" ∈ columns df -> "id" ∈ columns df ->
  Forall (fun r => is_numeric (cell "value" r) = true) (rows df) ->
  exists daily_data,
    daily_aggregation sqrt df = Ok daily_data
    /\ to_dict_records daily_data
       = (fun k => daily_aggregate_of sqrt (default Null (k !! 0%nat))
                     (group_of (keyed_by_date df) k))
           <$> group_keys (keyed_by_date df).
Proof.
  intros Hts Hv Hid Hnum. unfold daily_aggregation, getitem.
  rewrite decide_True by done. cbn [bind].
  unfold groupby_agg.
  change ([("value", [Mean; Sum; Count; Min; Max; Std]); ("id", [Nunique])].*1)
    with ["value"; "id"].
  rewrite !filter_cons, filter_nil, !decide_False by (intros ?; done).
  change ([(Some "timestamp", dt_date <$> (cell "timestamp" <$> rows df))].*2)
    with [dt_date <$> (cell "timestamp" <$> rows df)].
  fold (keyed_by_date df).
  rewrite (mapM_result_total _
    (fun k => (k, delete "timestamp"
                    (daily_aggregate_of sqrt Null (group_of (keyed_by_date df) k))))).
  2:{ intros k _. rewrite agg_group_daily; [done|].
      rewrite Forall_fmap. apply Forall_forall. intros r Hr. cbn.
      apply group_of_in in Hr as (kr & Hkr & _ & <-).
      apply keyed_rows_in in Hkr. rewrite Forall_forall in Hnum. by apply Hnum. }
  cbn [bind]. unfold reset_index, level_labels. cbn [index_names fmap list_fmap fst].
  cbn [imap reverse rev_append insert_levels].
  unfold insert_level. cbn [snd columns].
  rewrite decide_False by (vm_compute; intros [=]).
  cbn [bind]. eexists. split; [reflexivity|].
  unfold to_dict_records, rename_columns. cbn [rows default from_option fst snd].
  rewrite (fmap_imap_reindex_snd
             (fun m : pydict => list_to_map
                (prod_map (rename_label [("index", "date")]) id <$> map_to_list m))).
  rewrite <- !list_fmap_compose. apply list_fmap_ext. intros i k _.
  cbn [compose fst snd].
  generalize (group_of (keyed_by_date df) k) (default Null (k !! 0%nat)).
  intros g d. reflexivity.
Qed.

Lemma sum_list_with_add {A} (f g : A -> nat) l :
  sum_list_with (fun x => f x + g x)%nat l
  = (sum_list_with f l + sum_list_with g l)%nat.
Proof. induction l; cbn; lia. Qed.

Lemma sum_list_with_indicator {A} `{EqDecision A} (k0 : A) (c : nat) (ks : list A) :
  NoDup ks ->
  sum_list_with (fun k => if decide (k0 = k) then c else 0%nat) ks
  = if decide (k0 ∈ ks) then c else 0%nat.
Proof.
  induction 1 as [|k ks Hk Hnd IH]; [done|]. cbn. rewrite IH.
  repeat case_decide; subst; try lia; exfalso;
    match goal with
    | H : ?x ∈ ?k :: ?ks |- _ => apply elem_of_cons in H as [?|?]; congruence
    | H : ¬ ?x ∈ ?k :: ?ks |- _ => apply H; rewrite elem_of_cons; tauto
    end.
Qed.

Lemma sum_list_with_ext_in {A} (f g : A -> nat) l :
  (forall x, x ∈ l -> f x = g x) -> sum_list_with f l = sum_list_with g l.
Proof.
  induction l as [|x l IH]; intros H; [done|]. cbn.
  rewrite (H x) by left. rewrite IH; [done|]. intros; apply H; by right.
Qed.

(** Grouping is a partition: a measure summed group by group is the measure
    summed over the keyed rows. *)
Lemma group_sum (m : list value * pydict -> nat) keyed :
  sum_list_with (fun k => sum_list_with m (group_of keyed k)) (group_keys keyed)
  = sum_list_with (fun kr => m kr.2) keyed.
Proof.
  unfold group_keys. rewrite merge_sort_Permutation.
  assert (Hgen : forall ks, NoDup ks -> (forall kr, kr ∈ keyed -> kr.1 ∈ ks) ->
            sum_list_with (fun k => sum_list_with m (group_of keyed k)) ks
            = sum_list_with (fun kr => m kr.2) keyed).
  { intros ks Hnd. induction keyed as [|kr keyed IH]; intros Hcov.
    - cbn [sum_list_with]. clear Hnd Hcov. induction ks as [|k ks IHks]; [done|].
      cbn [sum_list_with]. rewrite IHks. unfold group_of. by rewrite filter_nil.
    - cbn [sum_list_with]. rewrite <- IH by (intros; apply Hcov; by right).
      rewrite <- (Nat.add_0_r (m kr.2)) at 1.
      assert (Hin : kr.1 ∈ ks) by (apply Hcov; left).
      transitivity (sum_list_with (fun k => (if decide (kr.1 = k) then m kr.2 else 0)
                                            + sum_list_with m (group_of keyed k))%nat ks).
      + apply sum_list_with_ext_in. intros k _. unfold group_of.
        rewrite filter_cons. destruct (decide (kr.1 = k)); [|done].
        by rewrite fmap_cons.
      + rewrite sum_list_with_add, sum_list_with_indicator by done.
        rewrite decide_True by done. lia. }
  apply Hgen.
  - apply NoDup_remove_dups.
  - intros kr Hkr. apply elem_of_remove_dups. by apply list_elem_of_fmap_2.
Qed.

Lemma filter_all {A} (P : A -> Prop) `{!forall x, Decision (P x)} (l : list A) :
  Forall P l -> filter P l = l.
Proof.
  induction 1 as [|x l Hx Hl IH]; [done|].
  by rewrite filter_cons_True, IH.
Qed.

Lemma keyed_by_date_all df :
  Forall (fun r => exists ns, cell "timestamp" r = Timestamp ns) (rows df) ->
  keyed_by_date df = (fun r => ([dt_date (cell "timestamp" r)], r)) <$> rows df.
Proof.
  intros Hts. unfold keyed_by_date, keyed_rows.
  assert (Hi : imap (fun i r => (keys_at [dt_date <$> (cell "timestamp" <$> rows df)] i, r))
                   (rows df)
               = (fun r => ([dt_date (cell "timestamp" r)], r)) <$> rows df).
  { etrans; [|apply imap_const]. apply imap_ext. intros i r Hr. cbn.
    by rewrite !list_lookup_fmap, Hr. }
  rewrite Hi. apply filter_all. rewrite Forall_fmap.
  eapply Forall_impl; [exact Hts|]. intros r [ns Hns]. cbn. by rewrite Hns.
Qed.

Lemma length_filter_sum {A} (P : A -> Prop) `{!forall x, Decision (P x)} (l : list A) :
  length (filter P l) = sum_list_with (fun x => if decide (P x) then 1 else 0)%nat l.
Proof.
  induction l as [|x l IH]; [done|].
  rewrite filter_cons. cbn [sum_list_with]. destruct (decide (P x)); cbn; lia.
Qed.

Lemma foldr_add_of_nat {A} (f : A -> nat) (l : list A) :
  foldr Z.add 0 ((fun x => Z.of_nat (f x)) <$> l) = Z.of_nat (sum_list_with f l).
Proof. induction l as [|x l IH]; [done|]. cbn. rewrite IH. lia. Qed.

(** The [value_count]s of the daily aggregates add up to the number of
    grouped rows that have a [value]. *)
Lemma daily_value_count_total df :
  Forall (fun r => exists ns, cell "timestamp" r = Timestamp ns) (rows df) ->
  field_total "value_count"
    ((fun k => daily_aggregate_of sqrt (default Null (k !! 0%nat))
                 (group_of (keyed_by_date df) k))
       <$> group_keys (keyed_by_date df))
  = Z.of_nat (count_present "value" df).
Proof.
  intros Hts. unfold field_total. rewrite <- list_fmap_compose.
  transitivity (foldr Z.add 0
    ((fun k => Z.of_nat (sum_list_with
                 (fun r => if decide (notna (cell "value" r) = true) then 1 else 0)%nat
                 (group_of (keyed_by_date df) k))) <$> group_keys (keyed_by_date df))).
  { f_equal. apply list_fmap_ext. intros i k _. cbn [compose].
    generalize (group_of (keyed_by_date df) k) (default Null (k !! 0%nat)).
    intros g d.
    change (field "value_count" (daily_aggregate_of sqrt d g))
      with (Int (Z.of_nat (length (filter (fun v => notna v = true) (cell "value" <$> g))))).
    cbn beta iota. f_equal.
    rewrite (filter_fmap (cell "value") (fun v => notna v = true)), length_fmap.
    apply length_filter_sum. }
  rewrite foldr_add_of_nat. f_equal. rewrite group_sum.
  rewrite keyed_by_date_all by done. unfold count_present.
  rewrite length_filter_sum. clear Hts. induction (rows df) as [|r l IH]; [done|].
  rewrite fmap_cons. cbn [sum_list_with snd]. by rewrite IH.
Qed.

Lemma group_keys_NoDup keyed : NoDup (group_keys keyed).
Proof. unfold group_keys. rewrite merge_sort_Permutation. apply NoDup_remove_dups. Qed.

Lemma elem_of_group_keys keyed k : k ∈ group_keys keyed <-> k ∈ keyed.*1.
Proof. unfold group_keys. by rewrite merge_sort_Permutation, elem_of_remove_dups. Qed.

Lemma elem_of_keys_by_date df k :
  Forall (fun r => exists ns, cell "timestamp" r = Timestamp ns) (rows df) ->
  k ∈ group_keys (keyed_by_date df) <-> exists v, k = [v] /\ v ∈ dates_of df.
Proof.
  intros Hts. rewrite elem_of_group_keys, keyed_by_date_all by done.
  rewrite <- list_fmap_compose. split.
  - rewrite list_elem_of_fmap. intros (r & -> & Hr).
    exists (dt_date (cell "timestamp" r)). split; [done|].
    unfold dates_of. apply list_elem_of_fmap. eauto.
  - intros (v & -> & Hv). unfold dates_of in Hv.
    apply list_elem_of_fmap in Hv as (r & -> & Hr).
    apply list_elem_of_fmap. by exists r.
Qed.

(** A calendar date of the frame keys one daily aggregate, any other date
    none. *)
Lemma daily_rows_keyed df d :
  Forall (fun r => exists ns, cell "timestamp" r = Timestamp ns) (rows df) ->
  rows_keyed (Date d)
    ((fun k => daily_aggregate_of sqrt (default Null (k !! 0%nat))
                 (group_of (keyed_by_date df) k))
       <$> group_keys (keyed_by_date df))
  = if decide (Date d ∈ dates_of df) then 1%nat else 0%nat.
Proof.
  intros Hts. unfold rows_keyed.
  rewrite (filter_fmap _ (fun r : pydict => field "timestamp" r = Date d)), length_fmap.
  rewrite (filter_ext_in _ (fun k => [Date d] = k)).
  2:{ intros k Hk. apply (elem_of_keys_by_date df k Hts) in Hk as (v & -> & _).
      change (field "timestamp" (daily_aggregate_of sqrt (default Null ([v] !! 0%nat))
                                   (group_of (keyed_by_date df) [v]))) with v.
      split; congruence. }
  rewrite length_filter_sum.
  rewrite (sum_list_with_indicator [Date d] 1%nat) by apply group_keys_NoDup.
  destruct (decide (Date d ∈ dates_of df)) as [Hd|Hd].
  - rewrite decide_True; [done|]. apply elem_of_keys_by_date; eauto.
  - rewrite decide_False; [done|]. intros Hk.
    apply (elem_of_keys_by_date df _ Hts) in Hk as (v & [= <-] & Hv). done.
Qed.

Lemma worked_in_place_rows r :
  forall df, r ∈ rows (worked_in_place parse df) ->
  exists r0, r0 ∈ rows df
    /\ notna (cell "id" r0) = true /\ notna (cell "timestamp" r0) = true
    /\ r = (r0.1, <["timestamp" := coerced parse (cell "timestamp" r0)]> r0.2).
Proof.
  intros df. unfold worked_in_place. cbn [rows]. rewrite list_elem_of_fmap.
  intros (r0 & -> & Hr0). apply list_elem_of_filter in Hr0 as [[? ?] ?]. eauto 6.
Qed.

(** Lines 30-36: what is left has an [id] and a parsed [timestamp]. *)
Lemma cleaned_frame_rows df r :
  r ∈ rows (cleaned_frame parse df) ->
  notna (cell "id" r) = true /\ exists ns, cell "timestamp" r = Timestamp ns.
Proof.
  unfold cleaned_frame. cbn [rows]. rewrite list_elem_of_filter.
  intros [Hna Hr]. apply worked_in_place_rows in Hr as (r0 & _ & Hid & _ & ->).
  rewrite cell_insert_eq in Hna. rewrite cell_insert_eq, cell_insert_ne by done.
  split; [done|].
  destruct (coerced_timestamp_or_null (cell "timestamp" r0)) as [E|[ns E]];
    rewrite E in *; [done|eauto].
Qed.

Lemma cleaned_frame_len df : (len (cleaned_frame parse df) <= len df)%nat.
Proof.
  unfold len, cleaned_frame, worked_in_place. cbn [rows].
  etrans; [apply length_filter|]. rewrite length_fmap. apply length_filter.
Qed.

Lemma cleaned_frame_value df r :
  r ∈ rows (cleaned_frame parse df) ->
  exists r0, r0 ∈ rows df /\ cell "value" r = cell "value" r0.
Proof.
  unfold cleaned_frame. cbn [rows]. rewrite list_elem_of_filter.
  intros [_ Hr]. apply worked_in_place_rows in Hr as (r0 & Hr0 & _ & _ & ->).
  exists r0. split; [done|]. by apply cell_insert_ne.
Qed.

Lemma is_raw_frame_inv df :
  is_raw_frame df = true ->
  "id" ∈ columns df /\ "timestamp" ∈ columns df /\ "value" ∈ columns df
  /\ Forall (fun r => is_numeric (cell "value" r) = true) (rows df).
Proof.
  unfold is_raw_frame. rewrite !andb_true_iff, !bool_decide_eq_true, forallb_forall.
  intros [[[? ?] ?] Hnum]. split_and!; try done.
  apply Forall_forall. intros r Hr. apply Hnum. by apply list_elem_of_In.
Qed.

Lemma count_present_setitem_scalar df c c' v :
  c <> c' -> count_present c' (setitem_scalar df c v) = count_present c' df.
Proof.
  intros Hne. unfold count_present, setitem_scalar. cbn [rows].
  rewrite (filter_fmap _ (fun r => notna (cell c' r) = true)), length_fmap.
  f_equal. apply list_filter_iff. intros r. by rewrite cell_insert_ne.
Qed.

Lemma dates_of_setitem_scalar df c v :
  c <> "timestamp" -> dates_of (setitem_scalar df c v) = dates_of df.
Proof.
  intros Hne. unfold dates_of, setitem_scalar. cbn [rows].
  rewrite <- list_fmap_compose. apply list_fmap_ext. intros i r _. cbn.
  by rewrite cell_insert_ne.
Qed.

Lemma count_present_le c df : (count_present c df <= len df)%nat.
Proof. apply length_filter. Qed.

Lemma count_present_all c df :
  Forall (fun r => notna (cell c r) = true) (rows df) -> count_present c df = len df.
Proof. intros Hall. unfold count_present, len. by rewrite filter_all. Qed.

Lemma union_list_same (K : gset string) (l : list (gset string)) :
  l <> [] -> Forall (fun X => X = K) l -> ⋃ l = K.
Proof.
  intros Hne Hall. induction Hall as [|X l -> Hl IH]; [done|].
  cbn. destruct l as [|Y l].
  - cbn. apply set_eq. intros x. rewrite elem_of_union, elem_of_empty.
    split; [by intros [?|[]]|by left].
  - rewrite IH by done. apply set_eq. intros x. rewrite elem_of_union.
    split; [by intros [?|?]|by left].
Qed.

Lemma union_fill_id (r : pydict) (K : gset string) :
  dom r = K -> r ∪ gset_to_gmap Null K = r.
Proof.
  intros <-. apply map_eq. intros k. rewrite lookup_union.
  destruct (r !! k) as [v|] eqn:E; [by destruct (gset_to_gmap Null (dom r) !! k)|].
  rewrite lookup_gset_to_gmap, option_guard_False; [done|].
  rewrite elem_of_dom, E. by intros [? ?].
Qed.

(** [pd.DataFrame(records)] when the records share their keys: no cell is
    filled in. *)
Lemma DataFrame_of_records_same_keys (K : gset string) records :
  records <> [] -> Forall (fun r : pydict => dom r = K) records ->
  DataFrame_of_records records
  = {| index_names := [None]; columns := K;
       rows := imap (fun i r => ([Int (Z.of_nat i)], r)) records |}.
Proof.
  intros Hne Hall. unfold DataFrame_of_records.
  assert (HK : ⋃ (dom <$> records) = K).
  { apply union_list_same; [by destruct records|]. by rewrite Forall_fmap. }
  rewrite HK. f_equal. apply imap_ext. intros i r Hr. cbn. f_equal.
  apply union_fill_id. rewrite Forall_forall in Hall. apply Hall.
  by eapply list_elem_of_lookup_2.
Qed.

Lemma zip_with_imap {A B C D} (f : B -> C -> D) (g : nat -> A -> B)
    (h : nat -> A -> C) (l : list A) :
  zip_with f (imap g l) (imap h l) = imap (fun i x => f (g i x) (h i x)) l.
Proof.
  revert g h. induction l as [|x l IH]; intros g h; [done|].
  rewrite !imap_cons. cbn. f_equal. apply (IH (g ∘ S) (h ∘ S)).
Qed.

Lemma setitem_imap {A} df c (g : nat -> A -> list value * pydict)
    (h : nat -> A -> value) (l : list A) :
  rows df = imap g l ->
  rows (setitem df c (imap h l))
  = imap (fun i x => ((g i x).1, <[c := h i x]> (g i x).2)) l.
Proof. intros Hr. unfold setitem. cbn [rows]. by rewrite Hr, zip_with_imap. Qed.

Lemma drop_take_three {A} (l : list A) j a b c :
  l !! j = Some a -> l !! S j = Some b -> l !! S (S j) = Some c ->
  drop j (take (S (S (S j))) l) = [a; b; c].
Proof.
  revert l. induction j as [|j IH]; intros l Ha Hb Hc.
  - destruct l as [|? [|? [|? l]]]; by simplify_eq/=.
  - destruct l as [|x l]; [done|]. cbn in *. by apply IH.
Qed.

(** The window of width 3 that ends at row [i]: the row and the up to two
    rows before it. *)
Lemma window_three {A} (l : list A) i x :
  l !! i = Some x ->
  window 3 i l
  = match i with
    | 0%nat => [x]
    | 1%nat => option_list (l !! 0%nat) ++ [x]
    | S (S j) => option_list (l !! j) ++ option_list (l !! S j) ++ [x]
    end.
Proof.
  intros Hx. unfold window. destruct i as [|[|j]].
  - destruct l; by simplify_eq/=.
  - destruct l as [|? [|? l]]; by simplify_eq/=.
  - assert (is_Some (l !! S j)) as [b Hb].
    { apply lookup_lt_is_Some. apply lookup_lt_Some in Hx. lia. }
    assert (is_Some (l !! j)) as [a Ha].
    { apply lookup_lt_is_Some. apply lookup_lt_Some in Hx. lia. }
    rewrite Ha, Hb. cbn [option_list app].
    replace (S (S (S j)) - 3)%nat with j by lia.
    by apply drop_take_three.
Qed.

Lemma len_setitem_scalar df c v : len (setitem_scalar df c v) = len df.
Proof. unfold len, setitem_scalar. cbn [rows]. apply length_fmap. Qed.

Lemma true_div_pos a n : n <> 0%nat -> true_div a n = Ok (qz a / qn n)%Qc.
Proof. by destruct n. Qed.

Lemma present_some (l : list value) : present (Some <$> l) = observations l.
Proof.
  unfold present, observations. induction l as [|v l IH]; [done|].
  cbn. rewrite IH. by destruct v.
Qed.

Lemma window_fmap {A B} (f : A -> B) w i (l : list A) :
  window w i (f <$> l) = f <$> window w i l.
Proof. unfold window. by rewrite fmap_drop, fmap_take. Qed.

(** The rolling mean of width 3 over numbers is the mean in the claim's
    words. *)
Lemma rolling_window_trailing_mean (ms : list value) i m :
  ms !! i = Some m ->
  float_cell (Qcmean (omap id (window 3 i (number_of <$> ms)))) = trailing_mean ms i.
Proof.
  intros Hm. rewrite window_fmap, omap_id_fmap, (window_three ms i m Hm).
  unfold trailing_mean. rewrite Hm. do 2 f_equal.
  destruct i as [|[|j]].
  - cbn. by destruct m.
  - destruct (ms !! 0%nat) as [v|]; cbn; [destruct v|]; by destruct m.
  - destruct (ms !! j) as [v|], (ms !! S j) as [v'|]; cbn;
      repeat match goal with v : value |- _ => destruct v end; done.
Qed.

Lemma rolling_mean_numeric (ms : list value) :
  Forall (fun v => is_numeric v = true) ms ->
  rolling_mean 3 1 ms = Ok (imap (fun i _ => trailing_mean ms i) ms).
Proof.
  intros Hnum. unfold rolling_mean. rewrite as_numbers_numeric by done. cbn [bind].
  f_equal. rewrite imap_fmap. apply imap_ext. intros i m Hm. cbn beta.
  rewrite <- (rolling_window_trailing_mean ms i m Hm).
  destruct (omap id (window 3 i (number_of <$> ms))) as [|x l].
  - by rewrite decide_False by (cbn; lia).
  - by rewrite decide_True by (cbn; lia).
Qed.

(** The flag of line 108 is the claim's comparison. *)
Lemma outlier_flag_deviates (m : value) (ms ss : list value) :
  nan_gt (nan_abs (nan_sub (number_of m) (Qcmean (observations ms))))
         (nan_scale 3 (Qcmean (observations ss)))
  = deviates m ms ss.
Proof.
  unfold deviates. rewrite !present_some.
  destruct (Qcmean (observations ms)) as [a|], (Qcmean (observations ss)) as [b|];
    destruct m; done.
Qed.

Lemma is_daily_aggregate_inv r :
  is_daily_aggregate r = true ->
  dom r = aggregate_fields
  /\ is_float (field "value_mean" r) = true
  /\ is_float (field "value_std" r) = true.
Proof.
  unfold is_daily_aggregate. rewrite !andb_true_iff, bool_decide_eq_true.
  cbn [forallb float_fields]. rewrite !andb_true_iff. tauto.
Qed.

Lemma is_float_numeric v : is_float v = true -> is_numeric v = true.
Proof. by destruct v. Qed.

Lemma enrich_dataset_nil now raw : enrich_dataset parse now [] raw = Ok [].
Proof. reflexivity. Qed.

Lemma add_day_of_week_skip df :
  "date" ∉ columns df -> add_day_of_week parse df = Ok df.
Proof. intros Hd. unfold add_day_of_week. by rewrite decide_False. Qed.

Lemma fmap_imap_cells {A} (c : string) (g : nat -> A -> list value * pydict)
    (f : A -> value) (l : list A) :
  (forall i x, l !! i = Some x -> cell c (g i x) = f x) ->
  cell c <$> imap g l = f <$> l.
Proof.
  intros Hc. rewrite fmap_imap. etrans; [|apply imap_const]. apply imap_ext.
  intros i x Hx. cbn. by apply Hc.
Qed.

(** Lines 104-108 on a frame whose rows come one by one from [daily]. *)
Lemma add_outlier_flag_imap df (g : nat -> pydict -> list value * pydict) daily :
  rows df = imap g daily ->
  "value_mean" ∈ columns df -> "value_std" ∈ columns df ->
  (forall i r, daily !! i = Some r -> cell "value_mean" (g i r) = field "value_mean" r) ->
  (forall i r, daily !! i = Some r -> cell "value_std" (g i r) = field "value_std" r) ->
  Forall (fun v => is_numeric v = true) (field "value_mean" <$> daily) ->
  Forall (fun v => is_numeric v = true) (field "value_std" <$> daily) ->
  exists df',
    add_outlier_flag df = Ok df'
    /\ to_dict_records df'
       = imap (fun i r =>
                 <["is_outlier" := Bool (deviates (field "value_mean" r)
                                           (field "value_mean" <$> daily)
                                           (field "value_std" <$> daily))]> (g i r).2)
              daily.
Proof.
  intros Hr Hm Hs Hcm Hcs Hnm Hns. unfold add_outlier_flag.
  rewrite decide_True by done. unfold getitem. rewrite !decide_True by done.
  cbn [bind]. rewrite Hr.
  rewrite (fmap_imap_cells "value_mean" g (field "value_mean")) by done.
  rewrite (fmap_imap_cells "value_std" g (field "value_std")) by done.
  unfold series_mean. rewrite !observed_numeric by done. cbn [bind].
  rewrite as_numbers_numeric by done. cbn [bind].
  eexists. split; [reflexivity|].
  unfold to_dict_records.
  rewrite <- !list_fmap_compose.
  assert (Hf : (fun m => Bool (nan_gt (nan_abs (nan_sub m
                   (Qcmean (observations (field "value_mean" <$> daily)))))
                   (nan_scale 3 (Qcmean (observations (field "value_std" <$> daily))))))
                 ∘ number_of ∘ field "value_mean" <$> daily
               = imap (fun _ r => Bool (deviates (field "value_mean" r)
                                           (field "value_mean" <$> daily)
                                           (field "value_std" <$> daily))) daily).
  { symmetry.
    etrans; [apply (imap_const (fun r => Bool (deviates (field "value_mean" r)
                                           (field "value_mean" <$> daily)
                                           (field "value_std" <$> daily))))|].
    apply list_fmap_ext. intros i r _. cbn. by rewrite outlier_flag_deviates. }
  rewrite Hf, (setitem_imap df "is_outlier" g _ daily Hr), fmap_imap.
  by apply imap_ext.
Qed.

Lemma enrich_dataset_daily_aggregates now daily raw :
  forallb is_daily_aggregate daily = true ->
  enrich_dataset parse now daily raw = Ok (imap (enriched_record now raw daily) daily).
Proof.
  intros Hagg. destruct (decide (daily = [])) as [->|Hne]; [done|].
  assert (Hall : Forall (fun r => is_daily_aggregate r = true) daily).
  { apply Forall_forall. intros r Hr. rewrite forallb_forall in Hagg.
    apply Hagg. by apply list_elem_of_In. }
  assert (Hdom : Forall (fun r : pydict => dom r = aggregate_fields) daily).
  { eapply Forall_impl; [exact Hall|]. intros r Hr. by apply is_daily_aggregate_inv. }
  assert (Hms : Forall (fun v => is_numeric v = true) (field "value_mean" <$> daily)).
  { rewrite Forall_fmap. eapply Forall_impl; [exact Hall|]. intros r Hr. cbn.
    by apply is_float_numeric, is_daily_aggregate_inv. }
  assert (Hss : Forall (fun v => is_numeric v = true) (field "value_std" <$> daily)).
  { rewrite Forall_fmap. eapply Forall_impl; [exact Hall|]. intros r Hr. cbn.
    by apply is_float_numeric, is_daily_aggregate_inv. }
  assert (Hlen : length daily <> 0%nat) by (by destruct daily).
  unfold enrich_dataset.
  rewrite (DataFrame_of_records_same_keys aggregate_fields) by done.
  set (df0 := {| index_names := [None]; columns := aggregate_fields;
                 rows := imap (fun i r => ([Int (Z.of_nat i)], r)) daily |}).
  assert (He : df_empty df0 = false).
  { unfold df_empty, df0. cbn [rows columns].
    rewrite (bool_decide_eq_false_2 (_ = [])).
    - by vm_compute.
    - intros E. apply (f_equal length) in E. rewrite length_imap in E. done. }
  rewrite He. cbn [negb].
  rewrite len_setitem_scalar.
  assert (Hl0 : len df0 = length daily) by (unfold len, df0; cbn; apply length_imap).
  rewrite Hl0, true_div_pos by done. cbn [bind].
  set (df3 := setitem_scalar _ "processing_timestamp" _).
  assert (Hr3 : rows df3 = imap (fun i r => ([Int (Z.of_nat i)],
            <["processing_timestamp" := Str now]>
            (<["avg_records_per_day" := Num (qz raw / qn (length daily))%Qc]>
            (<["total_records" := Int raw]> r)))) daily).
  { unfold df3, setitem_scalar, df0. cbn [rows]. rewrite !fmap_imap. by apply imap_ext. }
  assert (Hc3 : columns df3 = aggregate_fields ∪ {["total_records"]}
                  ∪ {["avg_records_per_day"]} ∪ {["processing_timestamp"]}) by done.
  assert (Hl3 : len df3 = length daily).
  { unfold len. by rewrite Hr3, length_imap. }
  assert (Hm3 : cell "value_mean" <$> rows df3 = field "value_mean" <$> daily).
  { rewrite Hr3, fmap_imap. etrans; [|apply imap_const]. apply imap_ext.
    intros i r _. unfold cell, field. cbn. by rewrite !lookup_insert_ne. }
  assert (Hs3 : cell "value_std" <$> rows df3 = field "value_std" <$> daily).
  { rewrite Hr3, fmap_imap. etrans; [|apply imap_const]. apply imap_ext.
    intros i r _. unfold cell, field. cbn. by rewrite !lookup_insert_ne. }
  unfold add_moving_average. rewrite Hl3.
  destruct (decide (3 <= length daily)%nat) as [H3|H3].
  - unfold getitem. rewrite decide_True
      by (rewrite Hc3; apply (bool_decide_unpack _); by vm_compute).
    rewrite Hm3. cbn [bind]. rewrite rolling_mean_numeric by done.
    cbn [bind]. rewrite imap_fmap.
    set (df4 := setitem df3 "value_mean_3day_ma" _).
    pose proof (setitem_imap df3 "value_mean_3day_ma" _
                  (fun i _ => trailing_mean (field "value_mean" <$> daily) i)
                  daily Hr3) as Hr4.
    fold df4 in Hr4. cbn beta in Hr4.
    assert (Hc4 : columns df4 = columns df3 ∪ {["value_mean_3day_ma"]}) by done.
    rewrite add_day_of_week_skip
      by (rewrite Hc4, Hc3; apply (bool_decide_unpack _); by vm_compute).
    cbn [bind].
    assert (Hvm : "value_mean" ∈ columns df4)
      by (rewrite Hc4, Hc3; apply (bool_decide_unpack _); by vm_compute).
    assert (Hvs : "value_std" ∈ columns df4)
      by (rewrite Hc4, Hc3; apply (bool_decide_unpack _); by vm_compute).
    match type of Hr4 with
    | rows _ = imap ?g _ =>
        assert (Hcm : forall i r, daily !! i = Some r ->
                  cell "value_mean" (g i r) = field "value_mean" r)
          by (intros i r _; unfold cell, field; cbn [fst snd];
              by rewrite !lookup_insert_ne);
        assert (Hcs : forall i r, daily !! i = Some r ->
                  cell "value_std" (g i r) = field "value_std" r)
          by (intros i r _; unfold cell, field; cbn [fst snd];
              by rewrite !lookup_insert_ne)
    end.
    destruct (add_outlier_flag_imap df4 _ daily Hr4 Hvm Hvs Hcm Hcs Hms Hss)
      as (df5 & E5 & E5').
    rewrite E5. cbn [bind]. rewrite E5'. f_equal. apply imap_ext.
    intros i r _. unfold enriched_record. by rewrite decide_True.
  - cbn [bind].
    rewrite add_day_of_week_skip
      by (rewrite Hc3; apply (bool_decide_unpack _); by vm_compute).
    cbn [bind].
    assert (Hvm : "value_mean" ∈ columns df3)
      by (rewrite Hc3; apply (bool_decide_unpack _); by vm_compute).
    assert (Hvs : "value_std" ∈ columns df3)
      by (rewrite Hc3; apply (bool_decide_unpack _); by vm_compute).
    match type of Hr3 with
    | rows _ = imap ?g _ =>
        assert (Hcm : forall i r, daily !! i = Some r ->
                  cell "value_mean" (g i r) = field "value_mean" r)
          by (intros i r _; unfold cell, field; cbn [fst snd];
              by rewrite !lookup_insert_ne);
        assert (Hcs : forall i r, daily !! i = Some r ->
                  cell "value_std" (g i r) = field "value_std" r)
          by (intros i r _; unfold cell, field; cbn [fst snd];
              by rewrite !lookup_insert_ne)
    end.
    destruct (add_outlier_flag_imap df3 _ daily Hr3 Hvm Hvs Hcm Hcs Hms Hss)
      as (df5 & E5 & E5').
    rewrite E5. cbn [bind]. rewrite E5'. f_equal. apply imap_ext.
    intros i r _. unfold enriched_record. by rewrite decide_False.
Qed.

Lemma as_numbers_raise s e : as_numbers s = Raise e -> exists msg, e = TypeError msg.
Proof.
  intros H. apply mapM_result_raise in H as (v & _ & Hv).
  destruct v; cbn in Hv; simplify_eq; eauto.
Qed.

Lemma to_datetime_raise errors s e :
  to_datetime parse errors s = Raise e -> e <> ZeroDivisionError.
Proof.
  intros H. apply mapM_result_raise in H as (v & _ & Hv).
  destruct v, errors; cbn in Hv; try destruct (parse s0); by simplify_eq.
Qed.

Lemma getitem_raise df c e : getitem df c = Raise e -> e = KeyError [c].
Proof. unfold getitem. case_decide; by intros [=]. Qed.

Lemma observed_raise s e : observed s = Raise e -> exists msg, e = TypeError msg.
Proof.
  unfold observed. destruct (as_numbers s) eqn:E; cbn; [done|].
  intros [= <-]. by eapply as_numbers_raise.
Qed.

Lemma add_moving_average_raise df e :
  add_moving_average df = Raise e -> e <> ZeroDivisionError.
Proof.
  unfold add_moving_average. case_decide; [|done].
  destruct (getitem df "value_mean") eqn:Eg; cbn.
  - unfold rolling_mean. destruct (as_numbers a) eqn:Ea; cbn; [done|].
    intros [= <-]. apply as_numbers_raise in Ea as [msg ->]. done.
  - intros [= <-]. apply getitem_raise in Eg as ->. done.
Qed.

Lemma add_day_of_week_raise df e :
  add_day_of_week parse df = Raise e -> e <> ZeroDivisionError.
Proof.
  unfold add_day_of_week. case_decide; [|done].
  destruct (getitem df "date") eqn:Eg; cbn.
  - destruct (to_datetime parse ErrorsRaise a) eqn:Et; cbn; [done|].
    intros [= <-]. by eapply to_datetime_raise.
  - intros [= <-]. apply getitem_raise in Eg as ->. done.
Qed.

Lemma add_outlier_flag_raise df e :
  add_outlier_flag df = Raise e -> e <> ZeroDivisionError.
Proof.
  unfold add_outlier_flag. case_decide; [|done].
  destruct (getitem df "value_mean") eqn:Eg; cbn;
    [|intros [= <-]; apply getitem_raise in Eg as ->; done].
  destruct (getitem df "value_std") eqn:Eg'; cbn;
    [|intros [= <-]; apply getitem_raise in Eg' as ->; done].
  unfold series_mean.
  destruct (observed a) eqn:Eo; cbn;
    [|intros [= <-]; apply observed_raise in Eo as [msg ->]; done].
  destruct (observed a0) eqn:Eo'; cbn;
    [|intros [= <-]; apply observed_raise in Eo' as [msg ->]; done].
  destruct (as_numbers a) eqn:Ea; cbn; [done|].
  intros [= <-]. apply as_numbers_raise in Ea as [msg ->]. done.
Qed.

(** C5. For every [raw_count], [enrich_dataset] on the empty list of daily
    aggregates returns the empty list; the division of line 93 is reached
    only with at least one row, so that no call, on any input, raises
    [ZeroDivisionError]. *)
Theorem enrich_dataset_empty now raw :
  enrich_dataset parse now [] raw = Ok []
  /\ forall daily, enrich_dataset parse now daily raw <> Raise ZeroDivisionError.
Proof.
  split; [reflexivity|]. intros daily. unfold enrich_dataset.
  destruct (df_empty (DataFrame_of_records daily)) eqn:He; cbn [negb]; [done|].
  rewrite len_setitem_scalar.
  assert (Hlen : len (DataFrame_of_records daily) <> 0%nat).
  { unfold df_empty in He. apply orb_false_iff in He as [He _].
    apply bool_decide_eq_false in He. unfold len.
    by destruct (rows (DataFrame_of_records daily)). }
  rewrite true_div_pos by done. cbn [bind].
  destruct (add_moving_average _) as [df1|e] eqn:E1; cbn [bind].
  2:{ intros [= ->]. by apply add_moving_average_raise in E1. }
  destruct (add_day_of_week parse df1) as [df2|e] eqn:E2; cbn [bind].
  2:{ intros [= ->]. by apply add_day_of_week_raise in E2. }
  destruct (add_outlier_flag df2) as [df3|e] eqn:E3; cbn [bind]; [done|].
  intros [= ->]. by apply add_outlier_flag_raise in E3.
Qed.




Lemma field_lookup (r : pydict) k :
  k ∈ dom r -> r !! k = Some (field k r).
Proof.
  rewrite elem_of_dom. intros [v Hv]. unfold field. by rewrite Hv.
Qed.

Lemma enriched_record_lookup now raw daily i r :
  dom r = aggregate_fields ->
  let r' := enriched_record now raw daily i r in
  r' !! "total_records" = Some (Int raw)
  /\ r' !! "avg_records_per_day" = Some (Num (qz raw / qn (length daily))%Qc)
  /\ r' !! "processing_timestamp" = Some (Str now)
  /\ r' !! "value_mean_3day_ma"
     = (if decide (3 <= length daily)%nat
        then Some (trailing_mean (field "value_mean" <$> daily) i) else None)
  /\ r' !! "day_of_week" = None
  /\ r' !! "is_outlier"
     = Some (Bool (deviates (field "value_mean" r) (field "value_mean" <$> daily)
                            (field "value_std" <$> daily)))
  /\ (forall k v, r !! k = Some v -> r' !! k = Some v).
Proof.
  intros Hdom r'. unfold r', enriched_record.
  assert (Hnot : forall k, k ∈ enrichment_fields -> r !! k = None).
  { intros k Hk. apply not_elem_of_dom. rewrite Hdom. revert Hk.
    unfold enrichment_fields. rewrite !elem_of_list_to_set, !elem_of_cons, elem_of_nil.
    intros [->|[->|[->|[->|[->|[->|[]]]]]]]; by vm_compute. }
  destruct (decide (3 <= length daily)%nat).
  - split_and!; simplify_map_eq; try done.
    + apply Hnot. by vm_compute.
    + intros k v Hk.
      assert (k ∉ enrichment_fields) as Hn by (intros Hin; apply Hnot in Hin; congruence).
      rewrite !lookup_insert_ne; [done|..]; intros <-; apply Hn; by vm_compute.
  - split_and!; simplify_map_eq; try done.
    + apply Hnot. by vm_compute.
    + apply Hnot. by vm_compute.
    + intros k v Hk.
      assert (k ∉ enrichment_fields) as Hn by (intros Hin; apply Hnot in Hin; congruence).
      rewrite !lookup_insert_ne; [done|..]; intros <-; apply Hn; by vm_compute.
Qed.

Lemma daily_aggregates_dom daily i r :
  forallb is_daily_aggregate daily = true -> daily !! i = Some r ->
  dom r = aggregate_fields /\ is_float (field "value_mean" r) = true.
Proof.
  intros Hagg Hr. rewrite forallb_forall in Hagg.
  assert (is_daily_aggregate r = true) as Hd.
  { apply Hagg, list_elem_of_In. by eapply list_elem_of_lookup_2. }
  apply is_daily_aggregate_inv in Hd. tauto.
Qed.


(** C10. On a non-empty list of daily aggregates, [enrich_dataset] returns
    as many records as it was given, and each output record has every
    key-value pair of the input record at the same position. *)
Theorem enrichment_keeps_aggregates now daily raw :
  daily <> [] ->
  forallb is_daily_aggregate daily = true ->
  exists out,
    enrich_dataset parse now daily raw = Ok out
    /\ length out = length daily
    /\ forall i r, daily !! i = Some r ->
         exists r', out !! i = Some r'
           /\ forall k v, r !! k = Some v -> r' !! k = Some v.
Proof.
  intros _ Hagg. eexists. split; [by apply enrich_dataset_daily_aggregates|].
  split; [by rewrite length_imap|].
  intros i r Hr. exists (enriched_record now raw daily i r).
  split; [by rewrite list_lookup_imap, Hr|].
  destruct (daily_aggregates_dom daily i r Hagg Hr) as [Hdom _].
  by destruct (enriched_record_lookup now raw daily i r Hdom) as (_ & _ & _ & _ & _ & _ & ?).
Qed.



Lemma mapM_result_exists {A B} (f : A -> result B) l :
  (forall x, x ∈ l -> exists y, f x = Ok y) -> exists ys, mapM_result f l = Ok ys.
Proof.
  induction l as [|x l IH]; intros Hok; [by eexists|].
  destruct (Hok x) as [y Hy]; [left|].
  destruct IH as [ys Hys]; [intros z Hz; apply Hok; by right|].
  exists (y :: ys). cbn. by rewrite Hy, Hys.
Qed.

Lemma agg_group_hourly g :
  Forall (fun v => is_numeric v = true) (cell "value" <$> g) ->
  exists m, agg_group sqrt [("value", [Mean; Sum; Count])] g = Ok m.
Proof.
  intros Hnum. unfold agg_group. cbn. rewrite (observed_numeric _ Hnum). cbn.
  by eexists.
Qed.

(** Lines 53-63 on a frame with the columns and numbers in [value]: the
    groups are aggregated, and [reset_index] raises. *)
Lemma hourly_aggregation_raw df :
  "timestamp" ∈ columns df -> "value" ∈ columns df ->
  Forall (fun r => is_numeric (cell "value" r) = true) (rows df) ->
  hourly_aggregation sqrt df
  = Raise (ValueError "cannot insert timestamp, already exists").
Proof.
  intros Hts Hv Hnum. unfold hourly_aggregation, getitem.
  rewrite decide_True by done. cbn [bind].
  destruct (groupby_agg sqrt df _ _) as [g|e] eqn:Hg.
  - cbn [bind]. apply groupby_agg_index_names in Hg. cbn in Hg.
    by rewrite (reset_index_same_name g "timestamp" Hg).
  - exfalso. unfold groupby_agg in Hg.
    change ([("value", [Mean; Sum; Count])].*1) with ["value"] in Hg.
    rewrite filter_cons, filter_nil, decide_False in Hg by (intros ?; done).
    match type of Hg with
    | context [mapM_result ?f ?l] =>
        destruct (mapM_result_exists f l) as [ys Hys]
    end.
    + intros k _.
      destruct (agg_group_hourly
                  (group_of (keyed_rows
                     [(Some "timestamp", dt_date <$> (cell "timestamp" <$> rows df));
                      (Some "timestamp", dt_hour <$> (cell "timestamp" <$> rows df))].*2
                     df) k)) as [m Hm].
      * rewrite Forall_fmap. apply Forall_forall. intros r Hr. cbn.
        apply group_of_in in Hr as (kr & Hkr & _ & <-).
        apply keyed_rows_in in Hkr. rewrite Forall_forall in Hnum. by apply Hnum.
      * rewrite Hm. by eexists.
    + rewrite Hys in Hg. done.
Qed.

(** C2, amended. The outcome of [clean_dataset] and the state it leaves
    depend on the input frame only, not on the clock; but the call works
    on the caller's frame in place: when the frame has the columns [id] and
    [timestamp], the caller is left with the rows that have both, the
    [timestamp] cells converted (NaT where they do not parse); otherwise
    the frame is as it was. *)
Theorem clean_dataset_works_in_place now now' df :
  clean_dataset parse sqrt now df = clean_dataset parse sqrt now' df
  /\ (clean_dataset parse sqrt now df).2
     = (if decide ("id" ∈ columns df ∧ "timestamp" ∈ columns df)
        then worked_in_place parse df else df).
Proof.
  split; [apply clean_dataset_clock|].
  destruct (decide ("id" ∈ columns df ∧ "timestamp" ∈ columns df)) as [[Hid Hts]|Hn].
  - by rewrite clean_dataset_unfold.
  - destruct (cleaning_raise now df Hn) as [m Hm].
    by rewrite (clean_dataset_cleaning_raise _ _ _ _ Hm).
Qed.

(** The daily aggregates of the cleaned rows: their counts and their keys. *)
Lemma daily_aggregates_of_cleaned now df :
  is_raw_frame df = true ->
  exists cleaned caller daily_data,
    cleaning parse now df = (Ok cleaned, caller)
    /\ daily_aggregation sqrt cleaned = Ok daily_data
    /\ field_total "value_count" (to_dict_records daily_data)
       = Z.of_nat (count_present "value" cleaned)
    /\ (count_present "value" cleaned <= len cleaned)%nat
    /\ (Forall (fun r => notna (cell "value" r) = true) (rows cleaned) ->
        field_total "value_count" (to_dict_records daily_data) = Z.of_nat (len cleaned))
    /\ (forall v, v ∈ dates_of cleaned -> exists d, v = Date d)
    /\ (forall d, rows_keyed (Date d) (to_dict_records daily_data)
                  = if decide (Date d ∈ dates_of cleaned) then 1%nat else 0%nat).
Proof.
  intros Hraw. apply is_raw_frame_inv in Hraw as (Hid & Hts & Hv & Hnum).
  set (cf := cleaned_frame parse df).
  assert (Hrows : Forall (fun r => exists ns, cell "timestamp" r = Timestamp ns) (rows cf)).
  { apply Forall_forall. intros r Hr. unfold cf in Hr.
    by apply (cleaned_frame_rows df) in Hr as [_ ?]. }
  assert (Hnum' : Forall (fun r => is_numeric (cell "value" r) = true) (rows cf)).
  { apply Forall_forall. intros r Hr. unfold cf in Hr.
    apply (cleaned_frame_value df) in Hr as (r0 & Hr0 & ->).
    rewrite Forall_forall in Hnum. by apply Hnum. }
  destruct (daily_aggregation_records cf Hts Hv Hid Hnum') as (daily_data & Hd & Hrec).
  exists (setitem_scalar cf "processed_date" (Str now)), (worked_in_place parse df),
    daily_data.
  rewrite daily_aggregation_processed_date, count_present_setitem_scalar,
    dates_of_setitem_scalar, len_setitem_scalar by done.
  assert (Htot : field_total "value_count" (to_dict_records daily_data)
                 = Z.of_nat (count_present "value" cf)).
  { rewrite Hrec. by apply daily_value_count_total. }
  split_and!.
  - by apply cleaning_ok.
  - done.
  - done.
  - apply count_present_le.
  - intros Hall. rewrite Htot. f_equal. apply count_present_all.
    unfold setitem_scalar in Hall. cbn [rows] in Hall. rewrite Forall_fmap in Hall.
    eapply Forall_impl; [exact Hall|]. intros r Hr. cbn in Hr.
    by rewrite cell_insert_ne in Hr.
  - intros v Hin. unfold dates_of in Hin. apply list_elem_of_fmap in Hin as (r & -> & Hr).
    rewrite Forall_forall in Hrows. destruct (Hrows r Hr) as [ns ->]. cbn. eauto.
  - intros d. rewrite Hrec. by apply daily_rows_keyed.
Qed.

(** C4, amended. For every frame of raw records, the daily aggregates that
    lines 42-50 compute from the cleaned rows have [value_count]s that add
    up to the number of cleaned rows with a [value] (at most the cleaned
    count, and the cleaned count when no cleaned row lacks its [value]), and
    every calendar date of the cleaned rows keys exactly one daily aggregate,
    any other date none. *)
Theorem daily_aggregates_partition now df :
  is_raw_frame df = true ->
  exists cleaned caller daily_data,
    cleaning parse now df = (Ok cleaned, caller)
    /\ daily_aggregation sqrt cleaned = Ok daily_data
    /\ field_total "value_count" (to_dict_records daily_data)
       = Z.of_nat (count_present "value" cleaned)
    /\ (count_present "value" cleaned <= len cleaned)%nat
    /\ (Forall (fun r => notna (cell "value" r) = true) (rows cleaned) ->
        field_total "value_count" (to_dict_records daily_data) = Z.of_nat (len cleaned))
    /\ (forall v, v ∈ dates_of cleaned -> exists d, v = Date d)
    /\ (forall d, rows_keyed (Date d) (to_dict_records daily_data)
                  = if decide (Date d ∈ dates_of cleaned) then 1%nat else 0%nat).
Proof. apply daily_aggregates_of_cleaned. Qed.

(** X4. Lines 30-39 taken alone, on a frame with the columns [id] and
    [timestamp]: they raise nothing, whatever the cells hold, and the frame
    they leave to aggregate has, in every row, an [id] and a parsed
    [timestamp], and is no longer than the input. *)
Lemma cleaning_keeps_clean_rows now df :
  "id" ∈ columns df -> "timestamp" ∈ columns df ->
  exists cleaned caller,
    cleaning parse now df = (Ok cleaned, caller)
    /\ (len cleaned <= len df)%nat
    /\ forall r, r ∈ rows cleaned ->
         notna (cell "id" r) = true /\ exists ns, cell "timestamp" r = Timestamp ns.
Proof.
  intros Hid Hts. do 2 eexists. split; [by apply cleaning_ok|].
  split; [rewrite len_setitem_scalar; apply cleaned_frame_len|].
  intros r Hr. unfold setitem_scalar in Hr. cbn [rows] in Hr.
  apply list_elem_of_fmap in Hr as (r0 & -> & Hr0).
  rewrite !cell_insert_ne by done. by apply (cleaned_frame_rows df).
Qed.

Lemma is_float_float_cell o : is_float (float_cell o) = true.
Proof. by destruct o. Qed.

Lemma daily_aggregate_of_shape d g :
  is_daily_aggregate (daily_aggregate_of sqrt (Date d) g) = true.
Proof.
  unfold is_daily_aggregate. rewrite !andb_true_iff. split_and!; try done.
  cbn [forallb float_fields]. rewrite !andb_true_iff.
  split_and!; try done; apply is_float_float_cell.
Qed.

(** What lines 42-50 produce has the shape of a daily aggregate. *)
Lemma daily_aggregation_shape now df :
  is_raw_frame df = true ->
  exists cleaned caller daily_data,
    cleaning parse now df = (Ok cleaned, caller)
    /\ daily_aggregation sqrt cleaned = Ok daily_data
    /\ forallb is_daily_aggregate (to_dict_records daily_data) = true.
Proof.
  intros Hraw. apply is_raw_frame_inv in Hraw as (Hid & Hts & Hv & Hnum).
  assert (Hrows : Forall (fun r => exists ns, cell "timestamp" r = Timestamp ns)
                    (rows (cleaned_frame parse df))).
  { apply Forall_forall. intros r Hr. by apply (cleaned_frame_rows df) in Hr as [_ ?]. }
  assert (Hnum' : Forall (fun r => is_numeric (cell "value" r) = true)
                    (rows (cleaned_frame parse df))).
  { apply Forall_forall. intros r Hr.
    apply (cleaned_frame_value df) in Hr as (r0 & Hr0 & ->).
    rewrite Forall_forall in Hnum. by apply Hnum. }
  destruct (daily_aggregation_records (cleaned_frame parse df) Hts Hv Hid Hnum')
    as (daily_data & Hd & Hrec).
  do 3 eexists. split; [by apply cleaning_ok|].
  rewrite daily_aggregation_processed_date. split; [done|].
  rewrite Hrec. apply forallb_forall. intros r Hr.
  apply list_elem_of_In, list_elem_of_fmap in Hr as (k & -> & Hk).
  apply (elem_of_keys_by_date _ _ Hrows) in Hk as (v & -> & Hin).
  unfold dates_of in Hin. apply list_elem_of_fmap in Hin as (r0 & -> & Hr0).
  rewrite Forall_forall in Hrows. destruct (Hrows r0 Hr0) as [ns ->].
  apply daily_aggregate_of_shape.
Qed.

(** X2. On a frame of raw records (the three columns, numbers or nothing
    in [value]) the exception that escapes [clean_dataset] is the
    [ValueError] of line 62, and by then the caller's frame has been
    worked on in place. *)
Theorem clean_dataset_raw_frame now df :
  is_raw_frame df = true ->
  clean_dataset parse sqrt now df
  = (Raise (ValueError "cannot insert timestamp, already exists"),
     worked_in_place parse df).
Proof.
  intros Hraw. apply is_raw_frame_inv in Hraw as (Hid & Hts & Hv & Hnum).
  rewrite clean_dataset_unfold by done.
  assert (Hnum' : Forall (fun r => is_numeric (cell "value" r) = true)
                    (rows (cleaned_frame parse df))).
  { apply Forall_forall. intros r Hr.
    apply (cleaned_frame_value df) in Hr as (r0 & Hr0 & ->).
    rewrite Forall_forall in Hnum. by apply Hnum. }
  destruct (daily_aggregation_records (cleaned_frame parse df) Hts Hv Hid Hnum')
    as (daily_data & -> & _).
  cbn [bind]. by rewrite hourly_aggregation_raw.
Qed.

(** X3. A frame that lacks the column [id] or the column [timestamp] (an
    empty batch gives a frame with no column at all) makes line 30 raise
    [KeyError] with the missing labels, and the frame is left as it was. *)
Theorem clean_dataset_missing_column now df :
  ¬ ("id" ∈ columns df ∧ "timestamp" ∈ columns df) ->
  let missing := filter (fun c => c ∉ columns df) ["id"; "timestamp"] in
  missing <> []
  /\ clean_dataset parse sqrt now df = (Raise (KeyError missing), df).
Proof.
  intros Hn missing.
  assert (Hne : missing <> []).
  { unfold missing. rewrite !filter_cons, filter_nil.
    destruct (decide ("id" ∉ columns df)); [done|].
    destruct (decide ("timestamp" ∉ columns df)); [done|].
    destruct Hn. split; by apply dec_stable. }
  split; [done|]. apply clean_dataset_cleaning_raise.
  unfold cleaning, bind_M, read_caller, lift, dropna. fold missing.
  by destruct missing.
Qed.

Lemma fmap_id_in {A} (f : A -> A) (l : list A) :
  (forall x, x ∈ l -> f x = x) -> f <$> l = l.
Proof.
  induction l as [|x l IH]; intros Hf; [done|].
  rewrite fmap_cons, (Hf x) by left. rewrite IH; [done|].
  intros y Hy. apply Hf. by right.
Qed.

Lemma filter_idemp {A} (P : A -> Prop) `{!forall x, Decision (P x)} (l : list A) :
  filter P (filter P l) = filter P l.
Proof.
  apply filter_all, Forall_forall. intros x Hx.
  by apply list_elem_of_filter in Hx as [? _].
Qed.

(** A second pass of lines 30 and 33 over a frame they have worked on
    leaves the rows whose [timestamp] had parsed, unchanged. *)
Lemma worked_in_place_twice df :
  worked_in_place parse (worked_in_place parse df) = cleaned_frame parse df.
Proof.
  unfold cleaned_frame. unfold worked_in_place at 1. f_equal.
  set (L := rows (worked_in_place parse df)).
  assert (HL : forall r, r ∈ L ->
            notna (cell "id" r) = true
            /\ (notna (cell "timestamp" r) = true ->
                (r.1, <["timestamp" := coerced parse (cell "timestamp" r)]> r.2) = r)).
  { intros r Hr. apply worked_in_place_rows in Hr as (r0 & _ & Hid & _ & ->).
    rewrite cell_insert_eq, cell_insert_ne by done. split; [done|].
    intros Hna. cbn [fst snd]. f_equal. rewrite insert_insert_eq. f_equal.
    destruct (coerced_timestamp_or_null (cell "timestamp" r0)) as [E|[ns E]];
      rewrite E in *; done. }
  rewrite (filter_ext_in _ (fun r => notna (cell "timestamp" r) = true)).
  2:{ intros r Hr. destruct (HL r Hr) as [Hid _]. rewrite Hid. tauto. }
  apply fmap_id_in. intros r Hr.
  apply list_elem_of_filter in Hr as [Hna Hr]. by apply HL.
Qed.

Lemma cleaned_frame_of_worked df :
  cleaned_frame parse (worked_in_place parse df) = cleaned_frame parse df.
Proof.
  unfold cleaned_frame at 1. rewrite worked_in_place_twice.
  unfold cleaned_frame. cbn [rows index_names columns worked_in_place].
  f_equal. apply filter_idemp.
Qed.

(** X5. Calling [clean_dataset] again on the frame a first call has worked
    on: the second call computes on the same cleaned rows and ends like the
    first; it takes the rows whose [timestamp] did not parse out of the
    caller's frame, and a third call changes nothing more. *)
Theorem clean_dataset_again now df :
  "id" ∈ columns df -> "timestamp" ∈ columns df ->
  let caller1 := (clean_dataset parse sqrt now df).2 in
  let caller2 := (clean_dataset parse sqrt now caller1).2 in
  (cleaning parse now caller1).1 = (cleaning parse now df).1
  /\ (clean_dataset parse sqrt now caller1).1 = (clean_dataset parse sqrt now df).1
  /\ caller2 = cleaned_frame parse df
  /\ (clean_dataset parse sqrt now caller2).2 = caller2.
Proof.
  intros Hid Hts caller1 caller2.
  assert (H1 : caller1 = worked_in_place parse df).
  { unfold caller1. by rewrite clean_dataset_unfold. }
  assert (H2 : caller2 = cleaned_frame parse df).
  { unfold caller2. rewrite H1, clean_dataset_unfold by done.
    apply worked_in_place_twice. }
  split_and!.
  - rewrite H1, !cleaning_ok by done. cbn [fst]. by rewrite cleaned_frame_of_worked.
  - rewrite H1, !clean_dataset_unfold by done. cbn [fst].
    by rewrite cleaned_frame_of_worked.
  - done.
  - rewrite H2, clean_dataset_unfold by done. cbn [snd].
    rewrite <- (worked_in_place_twice df) at 1.
    rewrite (worked_in_place_twice (worked_in_place parse df)).
    apply cleaned_frame_of_worked.
Qed.

(** X6. The daily aggregates of a frame of raw records carry their date
    under the key [timestamp], the name of the grouping Series: line 50
    finds no column [index] to rename, no record has a key [date], and so
    [enrich_dataset] adds no [day_of_week] to them. *)
Theorem daily_records_have_no_date_key now now_iso raw df :
  is_raw_frame df = true ->
  exists cleaned caller daily_data out,
    cleaning parse now df = (Ok cleaned, caller)
    /\ daily_aggregation sqrt cleaned = Ok daily_data
    /\ (forall r, r ∈ to_dict_records daily_data ->
          r !! "date" = None /\ exists d, r !! "timestamp" = Some (Date d))
    /\ enrich_dataset parse now_iso (to_dict_records daily_data) raw = Ok out
    /\ forall r', r' ∈ out -> r' !! "day_of_week" = None.
Proof.
  intros Hraw.
  destruct (daily_aggregation_shape now df Hraw)
    as (cleaned & caller & daily_data & Hc & Hd & Hshape).
  exists cleaned, caller, daily_data,
    (imap (enriched_record now_iso raw (to_dict_records daily_data))
          (to_dict_records daily_data)).
  split; [exact Hc|]. split; [exact Hd|]. split; [|split].
  - intros r Hr. rewrite forallb_forall in Hshape.
    assert (Hagg : is_daily_aggregate r = true) by (by apply Hshape, list_elem_of_In).
    pose proof Hagg as Hagg'. apply is_daily_aggregate_inv in Hagg' as (Hdom & _ & _).
    split.
    + apply not_elem_of_dom. rewrite Hdom. by vm_compute.
    + unfold is_daily_aggregate in Hagg. rewrite !andb_true_iff in Hagg.
      destruct Hagg as [[[[_ Hdate] _] _] _].
      rewrite (field_lookup r "timestamp") by (rewrite Hdom; by vm_compute).
      destruct (field "timestamp" r); try done. eauto.
  - by apply enrich_dataset_daily_aggregates.
  - intros r' Hr'. apply list_elem_of_lookup in Hr' as [i Hi].
    rewrite list_lookup_imap in Hi.
    destruct (to_dict_records daily_data !! i) as [r|] eqn:Hr; [|done].
    cbn in Hi. injection Hi as <-.
    destruct (daily_aggregates_dom _ i r Hshape Hr) as [Hdom _].
    by destruct (enriched_record_lookup now_iso raw (to_dict_records daily_data) i r Hdom)
      as (_ & _ & _ & _ & ? & _).
Qed.

Lemma observations_all_null (s : list value) :
  Forall (fun v => v = Null) s -> observations s = [].
Proof. induction 1 as [|v s -> _ IH]; [done|]. exact IH. Qed.

(** X8. On daily aggregates whose [value_std] is missing in every row
    (every date with a single record), the threshold of line 108 is NaN and
    no row is flagged. *)
Theorem no_outlier_without_std now daily raw :
  forallb is_daily_aggregate daily = true ->
  Forall (fun r : pydict => r !! "value_std" = Some Null) daily ->
  exists out,
    enrich_dataset parse now daily raw = Ok out
    /\ length out = length daily
    /\ forall r', r' ∈ out -> r' !! "is_outlier" = Some (Bool false).
Proof.
  intros Hagg Hstd. eexists. split; [by apply enrich_dataset_daily_aggregates|].
  split; [by rewrite length_imap|].
  intros r' Hr'. apply list_elem_of_lookup in Hr' as [i Hi].
  rewrite list_lookup_imap in Hi.
  destruct (daily !! i) as [r|] eqn:Hr; [|done]. cbn in Hi. injection Hi as <-.
  destruct (daily_aggregates_dom _ i r Hagg Hr) as [Hdom _].
  destruct (enriched_record_lookup now raw daily i r Hdom)
    as (_ & _ & _ & _ & _ & -> & _).
  do 2 f_equal. unfold deviates. rewrite !present_some.
  rewrite (observations_all_null (field "value_std" <$> daily)).
  - cbn [Qcmean].
    by destruct (present [Some (field "value_mean" r)]) as [|? [|]],
                (Qcmean (observations (field "value_mean" <$> daily))).
  - rewrite Forall_fmap. eapply Forall_impl; [exact Hstd|]. intros r0 Hr0. cbn.
    unfold field. by rewrite Hr0.
Qed.

Lemma len_DataFrame_of_records records :
  len (DataFrame_of_records records) = length records.
Proof. unfold len, DataFrame_of_records. cbn [rows]. apply length_imap. Qed.

Lemma columns_DataFrame_of_records records c :
  c ∈ columns (DataFrame_of_records records) <-> exists r, r ∈ records /\ is_Some (r !! c).
Proof.
  unfold DataFrame_of_records. cbn [columns]. rewrite elem_of_union_list. split.
  - intros (X & HX & Hc). apply list_elem_of_fmap in HX as (r & -> & Hr).
    exists r. split; [done|]. by apply elem_of_dom.
  - intros (r & Hr & Hc). exists (dom r). split; [by apply list_elem_of_fmap_2|].
    by apply elem_of_dom.
Qed.


(** X10. With at least three records, some key among them and no
    [value_mean] in any, line 98 raises [KeyError] for that column,
    whatever else the records hold. *)
Theorem enrich_dataset_needs_value_mean now daily raw :
  (3 <= length daily)%nat ->
  Exists (fun r : pydict => r <> ∅) daily ->
  Forall (fun r : pydict => r !! "value_mean" = None) daily ->
  enrich_dataset parse now daily raw = Raise (KeyError ["value_mean"]).
Proof.
  intros H3 Hex Hnone. apply Exists_exists in Hex as (r0 & Hr0 & Hne).
  rewrite Forall_forall in Hnone. unfold enrich_dataset.
  assert (He : df_empty (DataFrame_of_records daily) = false).
  { unfold df_empty. apply orb_false_iff. split; apply bool_decide_eq_false.
    - intros E. apply (f_equal length) in E.
      fold (len (DataFrame_of_records daily)) in E.
      rewrite len_DataFrame_of_records in E. cbn in E. lia.
    - intros E. apply Hne, map_eq. intros k. rewrite lookup_empty.
      destruct (r0 !! k) as [v|] eqn:Hk; [|done]. exfalso.
      apply (not_elem_of_empty (C := gset string) k). rewrite <- E.
      apply columns_DataFrame_of_records. eauto. }
  rewrite He. cbn [negb]. rewrite len_setitem_scalar, len_DataFrame_of_records.
  rewrite true_div_pos by lia. cbn [bind].
  unfold add_moving_average. rewrite !len_setitem_scalar, len_DataFrame_of_records.
  rewrite decide_True by done. unfold getitem. rewrite decide_False; [done|].
  cbn [columns setitem_scalar]. rewrite !elem_of_union, !elem_of_singleton.
  intros [[[Hin|?]|?]|?]; try done.
  apply columns_DataFrame_of_records in Hin as (r & Hr & [v Hv]).
  by rewrite (Hnone r Hr) in Hv.
Qed.



(** X21. The task [clean_data] builds its frame from the records of the
    payload, so a key that no record has is no column: when that is so of
    [id] or of [timestamp] (as with an empty payload), the task fails with
    the [KeyError] of line 30 naming the absent keys. *)
Theorem clean_data_absent_key now (records : list pydict) :
  let absent := filter (fun c => Forall (fun r : pydict => r !! c = None) records)
                       ["id"; "timestamp"] in
  absent <> [] ->
  clean_data parse sqrt now records = Raise (KeyError absent).
Proof.
  intros absent Hne. unfold clean_data.
  assert (Hcols : filter (fun c => c ∉ columns (DataFrame_of_records records))
                         ["id"; "timestamp"] = absent).
  { unfold absent. apply filter_ext_in. intros c _.
    rewrite columns_DataFrame_of_records, Forall_forall. split.
    - intros Hn r Hr. destruct (r !! c) eqn:E; [|done]. destruct Hn. eauto.
    - intros Hall (r & Hr & [v Hv]). by rewrite (Hall r Hr) in Hv. }
  rewrite (clean_dataset_cleaning_raise now _ (KeyError absent)
             (DataFrame_of_records records)); [done|].
  unfold cleaning, bind_M, read_caller, lift, dropna. rewrite Hcols.
  by destruct absent.
Qed.


End Facts.

(** * The claims on concrete runs *)

Lemma upload_daily_data_key ctx data s3 :
  upload_daily_data ctx data s3
  = Ok ("daily/{{ ds }}/daily_metrics.json",
        <["daily/{{ ds }}/daily_metrics.json" := data]> s3).
Proof. reflexivity. Qed.

Lemma upload_hourly_data_key ctx data s3 :
  upload_hourly_data ctx data s3
  = Ok ("hourly/{{ ds }}/hourly_metrics.json",
        <["hourly/{{ ds }}/hourly_metrics.json" := data]> s3).
Proof. reflexivity. Qed.

(** The write replaces what is at the key: a second attempt leaves the
    bucket as the first did. *)
Lemma upload_daily_data_retry ctx data s3 key s3' :
  upload_daily_data ctx data s3 = Ok (key, s3') ->
  upload_daily_data ctx data s3' = Ok (key, s3').
Proof.
  rewrite !upload_daily_data_key. intros [= <- <-]. by rewrite insert_insert_eq.
Qed.

Lemma upload_hourly_data_retry ctx data s3 key s3' :
  upload_hourly_data ctx data s3 = Ok (key, s3') ->
  upload_hourly_data ctx data s3' = Ok (key, s3').
Proof.
  rewrite !upload_hourly_data_key. intros [= <- <-]. by rewrite insert_insert_eq.
Qed.

(** Runs of two different days write the same two keys. *)
Lemma upload_keys_same_for_all_runs ctx ctx' data s3 :
  upload_daily_data ctx data s3 = upload_daily_data ctx' data s3
  /\ upload_hourly_data ctx data s3 = upload_hourly_data ctx' data s3.
Proof. done. Qed.

(** C1 (the code departs from it). For the run of 2025-05-01 the two
    uploads succeed and write the keys [daily/{{ ds }}/daily_metrics.json]
    and [hourly/{{ ds }}/hourly_metrics.json], the macro unrendered, which
    are not the keys [daily/2025-05-01/daily_metrics.json] and
    [hourly/2025-05-01/hourly_metrics.json] of the claim. *)
Theorem upload_keys_at_2025_05_01 :
  let ctx := {| ds := "2025-05-01" |} in
  upload_daily_data ctx [] ∅
  = Ok ("daily/{{ ds }}/daily_metrics.json", {[ "daily/{{ ds }}/daily_metrics.json" := [] ]})
  /\ "daily/{{ ds }}/daily_metrics.json" <> "daily/" +:+ ds ctx +:+ "/daily_metrics.json"
  /\ upload_hourly_data ctx [] ∅
     = Ok ("hourly/{{ ds }}/hourly_metrics.json",
           {[ "hourly/{{ ds }}/hourly_metrics.json" := [] ]})
  /\ "hourly/{{ ds }}/hourly_metrics.json" <> "hourly/" +:+ ds ctx +:+ "/hourly_metrics.json".
Proof. cbn. split_and!; done. Qed.

Lemma task_run_S p callable n :
  task_run p callable (S n) = task_step p callable (task_run p callable n).
Proof. reflexivity. Qed.

(** C9. A task with [max_attempts = 3] and exponential backoff whose
    callable fails (or times out) at every attempt reaches the terminal
    state [Failed] after exactly 3 attempts, not before, and stays there;
    the delays it waited for are [min(d, max)] and [min(d * m, max)], the
    delay before attempt [k + 1] being [min(d * m ^ k, max)]. *)
Theorem retry_three_attempts (p : RetryPolicy) (callable : nat -> outcome) :
  max_attempts p = 3%nat ->
  exponential_backoff p = true ->
  (forall k, callable k <> Success) ->
  let final := task_run p callable 6 in
  state final = Failed
  /\ attempts_made final = 3%nat
  /\ delays final = [Z.min (base_delay p) (max_delay p);
                     Z.min (base_delay p * multiplier p) (max_delay p)]
  /\ (forall n, (n < 6)%nat -> state (task_run p callable n) <> Failed)
  /\ (forall n, task_run p callable (6 + n) = final)
  /\ (forall k, delay_before p k
                = Z.min (base_delay p * multiplier p ^ Z.of_nat k) (max_delay p)).
Proof.
  intros Hmax Hexp Hfail.
  assert (Hstep : forall k r, state r = Running k ->
            task_step p callable r
            = if decide (S k < 3)%nat
              then {| state := Retrying (S k) (delay_before p k);
                      attempts_made := S k; delays := delays r |}
              else {| state := Failed; attempts_made := S k; delays := delays r |}).
  { intros k r Hr. unfold task_step. rewrite Hr, Hmax.
    specialize (Hfail k). by destruct (callable k). }
  assert (Hd : forall k, delay_before p k
                = Z.min (base_delay p * multiplier p ^ Z.of_nat k) (max_delay p)).
  { intros k. unfold delay_before. by rewrite Hexp. }
  assert (H1 : task_run p callable 1 = {| state := Running 0; attempts_made := 0; delays := [] |}).
  { rewrite (task_run_S p callable 0). unfold task_run, task_step. cbn.
    by rewrite Hmax. }
  assert (H2 : task_run p callable 2 = {| state := Retrying 1 (delay_before p 0); attempts_made := 1; delays := [] |}).
  { rewrite (task_run_S p callable 1).
    rewrite H1. by rewrite (Hstep 0%nat). }
  assert (H3 : task_run p callable 3 = {| state := Running 1; attempts_made := 1; delays := [delay_before p 0] |}).
  { rewrite (task_run_S p callable 2).
    by rewrite H2. }
  assert (H4 : task_run p callable 4 = {| state := Retrying 2 (delay_before p 1); attempts_made := 2; delays := [delay_before p 0] |}).
  { rewrite (task_run_S p callable 3).
    rewrite H3. by rewrite (Hstep 1%nat). }
  assert (H5 : task_run p callable 5 = {| state := Running 2; attempts_made := 2; delays := [delay_before p 0; delay_before p 1] |}).
  { rewrite (task_run_S p callable 4).
    by rewrite H4. }
  assert (H6 : task_run p callable 6 = {| state := Failed; attempts_made := 3; delays := [delay_before p 0; delay_before p 1] |}).
  { rewrite (task_run_S p callable 5).
    rewrite H5. by rewrite (Hstep 2%nat). }
  assert (H7 : forall n, task_run p callable (6 + n) = task_run p callable 6).
  { intros n. induction n as [|n IH].
    - by rewrite Nat.add_0_r.
    - replace (6 + S n)%nat with (S (6 + n)) by lia.
      by rewrite task_run_S, IH, H6. }
  cbv zeta. split_and!; try done; rewrite ?H6; try done.
  - cbn [delays]. rewrite !Hd. cbn. by rewrite Z.mul_1_r, Z.pow_1_r.
  - intros n Hn.
    destruct n as [|[|[|[|[|[|n]]]]]]; try lia;
      rewrite ?H1, ?H2, ?H3, ?H4, ?H5; done.
Qed.

Lemma retry_three_attempts_witness :
  state (task_run three_attempts always_failing 6) = Failed
  /\ attempts_made (task_run three_attempts always_failing 6) = 3%nat
  /\ delays (task_run three_attempts always_failing 6) = [300; 600]
  /\ delay_before three_attempts 4 = 3600.
Proof.
  destruct (retry_three_attempts three_attempts always_failing)
    as (Hs & Ha & Hd & _ & _ & Hk); [reflexivity|reflexivity|done|].
  split_and!; [exact Hs|exact Ha|by rewrite Hd|by rewrite Hk].
Defined.

(** C3 (the code departs from it). On one well-formed record
    [clean_data], that is [clean_dataset] on the frame of the record,
    returns nothing: line 62 raises [ValueError], whatever the clock. *)
Theorem clean_data_single_record now :
  clean_data iso_parse isqrt now single_record
  = Raise (ValueError "cannot insert timestamp, already exists").
Proof. vm_compute. reflexivity. Qed.

(** C8 (the code departs from it). On the 25 records of the scenario
    [clean_data] raises [ValueError] at line 62 and returns no cleaned
    count and no aggregate. *)
Theorem clean_data_scenario now :
  clean_data iso_parse isqrt now scenario_records
  = Raise (ValueError "cannot insert timestamp, already exists").
Proof. vm_compute. reflexivity. Qed.

(** C7 (the code departs from it). Three rows with a [value_std] and no
    [value_mean]: line 98 raises [KeyError] before the guard of line 105 is
    reached. *)
Theorem enrich_dataset_without_mean parse now raw :
  enrich_dataset parse now (rows_without_mean 3) raw = Raise (KeyError ["value_mean"]).
Proof. vm_compute. reflexivity. Qed.


Lemma scenario_frame_columns :
  "id" ∈ columns (DataFrame_of_records scenario_records)
  /\ "timestamp" ∈ columns (DataFrame_of_records scenario_records).
Proof. split; apply (bool_decide_unpack _); by vm_compute. Qed.

Lemma eleven : (qz 22 / qn 2)%Qc = qz 11.
Proof. by apply Qc_is_canon. Qed.

(** The stages of the scenario, each taken alone: 22 cleaned rows, 2 daily
    aggregates, and an enrichment of these with [total_records = 22],
    [avg_records_per_day = 11.0] and no moving average. *)
Lemma scenario_stages now now_iso :
  exists cleaned caller daily_data out,
    cleaning iso_parse now (DataFrame_of_records scenario_records) = (Ok cleaned, caller)
    /\ len cleaned = 22%nat
    /\ daily_aggregation isqrt cleaned = Ok daily_data
    /\ length (to_dict_records daily_data) = 2%nat
    /\ enrich_dataset iso_parse now_iso (to_dict_records daily_data) 22 = Ok out
    /\ forall i r', out !! i = Some r' ->
         r' !! "total_records" = Some (Int 22)
         /\ r' !! "avg_records_per_day" = Some (Num (qz 11))
         /\ r' !! "value_mean_3day_ma" = None.
Proof.
  destruct scenario_frame_columns as [Hid Hts].
  destruct (daily_aggregation_shape iso_parse isqrt now
              (DataFrame_of_records scenario_records))
    as (cleaned & caller & daily_data & Hc & Hd & Hshape); [by vm_compute|].
  pose proof Hc as Hc'. rewrite cleaning_ok in Hc' by done.
  injection Hc' as Hcl _.
  assert (Hlen : len cleaned = 22%nat) by (rewrite <- Hcl; by vm_compute).
  assert (Hrows : length (to_dict_records daily_data) = 2%nat).
  { rewrite <- Hcl in Hd. rewrite daily_aggregation_processed_date in Hd.
    set (cf := cleaned_frame iso_parse (DataFrame_of_records scenario_records)) in *.
    assert (Hts' : "timestamp" ∈ columns cf) by (apply (bool_decide_unpack _); by vm_compute).
    assert (Hv' : "value" ∈ columns cf) by (apply (bool_decide_unpack _); by vm_compute).
    assert (Hid' : "id" ∈ columns cf) by (apply (bool_decide_unpack _); by vm_compute).
    assert (Hnum : Forall (fun r => is_numeric (cell "value" r) = true) (rows cf))
      by (apply (bool_decide_unpack _); by vm_compute).
    destruct (daily_aggregation_records isqrt cf Hts' Hv' Hid' Hnum) as (dd & Hdd & Hrec).
    rewrite Hd in Hdd. injection Hdd as <-. rewrite Hrec, length_fmap.
    by vm_compute. }
  exists cleaned, caller, daily_data,
    (imap (enriched_record now_iso 22 (to_dict_records daily_data))
          (to_dict_records daily_data)).
  split; [exact Hc|]. split; [exact Hlen|]. split; [exact Hd|].
  split; [exact Hrows|].
  split; [by apply enrich_dataset_daily_aggregates|].
  intros i r' Hr'. rewrite list_lookup_imap in Hr'.
  destruct (to_dict_records daily_data !! i) as [r|] eqn:Hr; [|done].
  cbn in Hr'. injection Hr' as <-.
  destruct (daily_aggregates_dom _ i r Hshape Hr) as [Hdom _].
  destruct (enriched_record_lookup now_iso 22 (to_dict_records daily_data) i r Hdom)
    as (Ht & Ha & _ & Hma & _).
  rewrite Hrows in Ha, Hma. rewrite eleven in Ha.
  rewrite decide_False in Hma by lia. by split_and!.
Qed.

(** C2, as stated, fails. Of two records, the second without its [id],
    the caller's frame holds one row after the call where it held two. *)
Lemma clean_dataset_drops_rows_of_caller :
  len (DataFrame_of_records records_missing_id) = 2%nat
  /\ len (clean_dataset iso_parse isqrt "2025-05-03"
            (DataFrame_of_records records_missing_id)).2 = 1%nat
  /\ (clean_dataset iso_parse isqrt "2025-05-03"
        (DataFrame_of_records records_missing_id)).2
     <> DataFrame_of_records records_missing_id.
Proof.
  split; [by vm_compute|]. split; [by vm_compute|].
  intros H. apply (f_equal len) in H. vm_compute in H. discriminate.
Qed.

(** C4, as stated, fails. For one record with an [id] and a [timestamp]
    but no [value], nothing is returned, and the daily aggregate computed
    from the one cleaned row has [value_count] 0. *)
Lemma value_count_skips_missing_value :
  clean_data iso_parse isqrt "2025-05-03" records_missing_value
  = Raise (ValueError "cannot insert timestamp, already exists")
  /\ exists cleaned caller daily_data,
       cleaning iso_parse "2025-05-03" (DataFrame_of_records records_missing_value)
       = (Ok cleaned, caller)
       /\ daily_aggregation isqrt cleaned = Ok daily_data
       /\ len cleaned = 1%nat
       /\ field_total "value_count" (to_dict_records daily_data) = 0
       /\ field_total "value_count" (to_dict_records daily_data) <> Z.of_nat (len cleaned).
Proof.
  split; [by vm_compute|].
  destruct (daily_aggregates_of_cleaned iso_parse isqrt "2025-05-03"
              (DataFrame_of_records records_missing_value))
    as (cleaned & caller & daily_data & Hc & Hd & Htot & _); [by vm_compute|].
  pose proof Hc as Hc'. rewrite cleaning_ok in Hc'
    by (apply (bool_decide_unpack _); by vm_compute).
  injection Hc' as Hcl _.
  assert (Hlen : len cleaned = 1%nat) by (rewrite <- Hcl; by vm_compute).
  assert (Hcount : count_present "value" cleaned = 0%nat)
    by (rewrite <- Hcl; by vm_compute).
  exists cleaned, caller, daily_data.
  split; [exact Hc|]. split; [exact Hd|]. split; [exact Hlen|].
  rewrite Htot, Hcount, Hlen. by split.
Qed.

Lemma daily_aggregates_partition_witness :
  is_raw_frame (DataFrame_of_records scenario_records) = true
  /\ exists cleaned caller daily_data,
       cleaning iso_parse "2025-05-03" (DataFrame_of_records scenario_records)
       = (Ok cleaned, caller)
       /\ daily_aggregation isqrt cleaned = Ok daily_data
       /\ field_total "value_count" (to_dict_records daily_data)
          = Z.of_nat (count_present "value" cleaned).
Proof.
  split; [by vm_compute|].
  destruct (daily_aggregates_partition iso_parse isqrt "2025-05-03"
              (DataFrame_of_records scenario_records))
    as (cleaned & caller & daily_data & Hc & Hd & Htot & _); [by vm_compute|].
  exists cleaned, caller, daily_data. split; [exact Hc|]. split; [exact Hd|exact Htot].
Defined.


Lemma enrichment_keeps_aggregates_witness :
  three_aggregates <> []
  /\ forallb is_daily_aggregate three_aggregates = true
  /\ exists out,
       enrich_dataset iso_parse "2025-05-03T02:00:00" three_aggregates 6 = Ok out
       /\ length out = length three_aggregates.
Proof.
  split; [done|]. split; [by vm_compute|].
  destruct (enrichment_keeps_aggregates iso_parse "2025-05-03T02:00:00"
              three_aggregates 6)
    as (out & Ho & Hl & _); [done|by vm_compute|].
  exists out. split; [exact Ho|exact Hl].
Defined.


(** * More on the task callables *)

(** X12. An upload that is tried again with the same payload leaves the
    bucket as the first attempt did, and returns the same key: the write
    replaces the object. *)
Theorem upload_retry_same_bucket ctx daily hourly s3 kd kh s3d s3h :
  upload_daily_data ctx daily s3 = Ok (kd, s3d) ->
  upload_hourly_data ctx hourly s3 = Ok (kh, s3h) ->
  upload_daily_data ctx daily s3d = Ok (kd, s3d)
  /\ upload_hourly_data ctx hourly s3h = Ok (kh, s3h).
Proof.
  intros Hd Hh. split.
  - by apply (upload_daily_data_retry ctx daily s3).
  - by apply (upload_hourly_data_retry ctx hourly s3).
Qed.

Lemma upload_retry_same_bucket_witness :
  upload_daily_data {| ds := "2025-05-01" |} single_record ∅
  = Ok ("daily/{{ ds }}/daily_metrics.json",
        {[ "daily/{{ ds }}/daily_metrics.json" := single_record ]})
  /\ upload_daily_data {| ds := "2025-05-01" |} single_record
       {[ "daily/{{ ds }}/daily_metrics.json" := single_record ]}
     = Ok ("daily/{{ ds }}/daily_metrics.json",
           {[ "daily/{{ ds }}/daily_metrics.json" := single_record ]}).
Proof.
  split; [reflexivity|].
  apply (upload_retry_same_bucket {| ds := "2025-05-01" |} single_record [] ∅
           _ "hourly/{{ ds }}/hourly_metrics.json" _
           {[ "hourly/{{ ds }}/hourly_metrics.json" := [] ]}); reflexivity.
Defined.

(** X13. The two uploads of a run write two different keys and do not
    disturb each other: when they go through, in either order, the bucket
    ends the same, with the daily payload at the one key, the hourly
    payload at the other, and every other object as it was. *)
Theorem uploads_do_not_interfere ctx daily hourly (s3 : bucket)
    kd kh s3d s3dh kh' kd' s3h s3hd :
  upload_daily_data ctx daily s3 = Ok (kd, s3d) ->
  upload_hourly_data ctx hourly s3d = Ok (kh, s3dh) ->
  upload_hourly_data ctx hourly s3 = Ok (kh', s3h) ->
  upload_daily_data ctx daily s3h = Ok (kd', s3hd) ->
  kd' = kd /\ kh' = kh /\ kd <> kh
  /\ s3hd = s3dh
  /\ s3dh !! kd = Some daily
  /\ s3dh !! kh = Some hourly
  /\ forall k, k <> kd -> k <> kh -> s3dh !! k = s3 !! k.
Proof.
  rewrite !upload_daily_data_key, !upload_hourly_data_key.
  intros [= <- <-] [= <- <-] [= <- <-] [= <- <-]. split_and!; try done.
  - by apply insert_insert_ne.
  - by rewrite lookup_insert_ne, lookup_insert_eq.
  - by rewrite lookup_insert_eq.
  - intros k Hd Hh. by rewrite !lookup_insert_ne.
Qed.

Lemma uploads_do_not_interfere_witness :
  let ctx := {| ds := "2025-05-01" |} in
  let kd := "daily/{{ ds }}/daily_metrics.json" in
  let kh := "hourly/{{ ds }}/hourly_metrics.json" in
  upload_daily_data ctx single_record ∅ = Ok (kd, {[ kd := single_record ]})
  /\ upload_hourly_data ctx [] {[ kd := single_record ]}
     = Ok (kh, <[kh := []]> {[ kd := single_record ]})
  /\ (<[kh := []]> {[ kd := single_record ]} : bucket) !! kd = Some single_record.
Proof.
  intros ctx kd kh. split; [reflexivity|]. split; [reflexivity|].
  exact (proj1 (proj2 (proj2 (proj2 (proj2
    (uploads_do_not_interfere ctx single_record [] ∅
       kd kh {[ kd := single_record ]} (<[kh := []]> {[ kd := single_record ]})
       kh kd {[ kh := [] ]} (<[kd := single_record]> {[ kh := [] ]})
       eq_refl eq_refl eq_refl eq_refl)))))).
Defined.

(** X14. The key does not depend on the run: the upload of a later run
    goes to the key an earlier run wrote and replaces its object, and the
    bucket is as if the earlier run had uploaded nothing. *)
Theorem later_run_replaces_earlier ctx ctx' data data' (s3 : bucket) key s3a key' s3b :
  upload_daily_data ctx data s3 = Ok (key, s3a) ->
  upload_daily_data ctx' data' s3a = Ok (key', s3b) ->
  key' = key
  /\ s3b !! key = Some data'
  /\ upload_daily_data ctx' data' s3 = Ok (key, s3b).
Proof.
  rewrite !upload_daily_data_key. intros [= <- <-] [= <- <-]. split_and!.
  - done.
  - by rewrite lookup_insert_eq.
  - by rewrite insert_insert_eq.
Qed.

Lemma later_run_replaces_earlier_witness :
  let key := "daily/{{ ds }}/daily_metrics.json" in
  upload_daily_data {| ds := "2025-05-01" |} single_record ∅
  = Ok (key, {[ key := single_record ]})
  /\ upload_daily_data {| ds := "2025-05-02" |} records_missing_value
       {[ key := single_record ]}
     = Ok (key, {[ key := records_missing_value ]})
  /\ ({[ key := records_missing_value ]} : bucket) !! key = Some records_missing_value.
Proof.
  intros key. split; [reflexivity|]. split; [reflexivity|].
  exact (proj1 (proj2
    (later_run_replaces_earlier {| ds := "2025-05-01" |} {| ds := "2025-05-02" |}
       single_record records_missing_value ∅ key {[ key := single_record ]}
       key {[ key := records_missing_value ]} eq_refl eq_refl))).
Defined.


(** * The further statements on concrete inputs *)

Lemma clean_dataset_raw_frame_witness :
  let df := DataFrame_of_records scenario_records in
  is_raw_frame df = true
  /\ clean_dataset iso_parse isqrt "2025-05-03" df
     = (Raise (ValueError "cannot insert timestamp, already exists"),
        worked_in_place iso_parse df).
Proof.
  intros df.
  assert (Hraw : is_raw_frame df = true) by (by vm_compute).
  split; [exact Hraw|].
  exact (clean_dataset_raw_frame iso_parse isqrt "2025-05-03" df Hraw).
Defined.

Lemma clean_dataset_missing_column_witness :
  let df := DataFrame_of_records [] in
  ¬ ("id" ∈ columns df ∧ "timestamp" ∈ columns df)
  /\ clean_dataset iso_parse isqrt "2025-05-03" df
     = (Raise (KeyError ["id"; "timestamp"]), df).
Proof.
  intros df.
  assert (Hn : ¬ ("id" ∈ columns df ∧ "timestamp" ∈ columns df))
    by (intros [H _]; by apply (bool_decide_pack _) in H).
  split; [exact Hn|].
  exact (proj2 (clean_dataset_missing_column iso_parse isqrt "2025-05-03" df Hn)).
Defined.

Lemma cleaning_keeps_clean_rows_witness :
  let df := DataFrame_of_records scenario_records in
  "id" ∈ columns df /\ "timestamp" ∈ columns df
  /\ exists cleaned caller,
       cleaning iso_parse "2025-05-03" df = (Ok cleaned, caller)
       /\ (len cleaned <= len df)%nat
       /\ forall r, r ∈ rows cleaned ->
            notna (cell "id" r) = true /\ exists ns, cell "timestamp" r = Timestamp ns.
Proof.
  intros df.
  assert (Hid : "id" ∈ columns df) by (apply (bool_decide_unpack _); by vm_compute).
  assert (Hts : "timestamp" ∈ columns df) by (apply (bool_decide_unpack _); by vm_compute).
  split; [exact Hid|]. split; [exact Hts|].
  exact (cleaning_keeps_clean_rows iso_parse "2025-05-03" df Hid Hts).
Defined.

Lemma clean_dataset_again_witness :
  let df := DataFrame_of_records scenario_records in
  "id" ∈ columns df /\ "timestamp" ∈ columns df
  /\ (clean_dataset iso_parse isqrt "2025-05-03"
        (clean_dataset iso_parse isqrt "2025-05-03" df).2).2
     = cleaned_frame iso_parse df.
Proof.
  intros df.
  assert (Hid : "id" ∈ columns df) by (apply (bool_decide_unpack _); by vm_compute).
  assert (Hts : "timestamp" ∈ columns df) by (apply (bool_decide_unpack _); by vm_compute).
  split; [exact Hid|]. split; [exact Hts|].
  exact (proj1 (proj2 (proj2
           (clean_dataset_again iso_parse isqrt "2025-05-03" df Hid Hts)))).
Defined.

Lemma daily_records_have_no_date_key_witness :
  let df := DataFrame_of_records scenario_records in
  is_raw_frame df = true
  /\ exists cleaned caller daily_data out,
       cleaning iso_parse "2025-05-03" df = (Ok cleaned, caller)
       /\ daily_aggregation isqrt cleaned = Ok daily_data
       /\ (forall r, r ∈ to_dict_records daily_data ->
             r !! "date" = None /\ exists d, r !! "timestamp" = Some (Date d))
       /\ enrich_dataset iso_parse "2025-05-03T02:00:00" (to_dict_records daily_data) 22
          = Ok out
       /\ forall r', r' ∈ out -> r' !! "day_of_week" = None.
Proof.
  intros df.
  assert (Hraw : is_raw_frame df = true) by (by vm_compute).
  split; [exact Hraw|].
  exact (daily_records_have_no_date_key iso_parse isqrt "2025-05-03"
           "2025-05-03T02:00:00" 22 df Hraw).
Defined.



Lemma no_outlier_without_std_witness :
  forallb is_daily_aggregate lone_aggregates = true
  /\ Forall (fun r : pydict => r !! "value_std" = Some Null) lone_aggregates
  /\ exists out,
       enrich_dataset iso_parse "2025-05-03T02:00:00" lone_aggregates 2 = Ok out
       /\ length out = length lone_aggregates
       /\ forall r', r' ∈ out -> r' !! "is_outlier" = Some (Bool false).
Proof.
  assert (Hagg : forallb is_daily_aggregate lone_aggregates = true) by (by vm_compute).
  assert (Hstd : Forall (fun r : pydict => r !! "value_std" = Some Null) lone_aggregates)
    by (apply (bool_decide_unpack _); by vm_compute).
  split; [exact Hagg|]. split; [exact Hstd|].
  exact (no_outlier_without_std iso_parse "2025-05-03T02:00:00" lone_aggregates 2
           Hagg Hstd).
Defined.


Lemma enrich_dataset_needs_value_mean_witness :
  (3 <= length (rows_without_mean 4))%nat
  /\ Exists (fun r : pydict => r <> ∅) (rows_without_mean 4)
  /\ Forall (fun r : pydict => r !! "value_mean" = None) (rows_without_mean 4)
  /\ enrich_dataset iso_parse "2025-05-03T02:00:00" (rows_without_mean 4) 9
     = Raise (KeyError ["value_mean"]).
Proof.
  assert (H3 : (3 <= length (rows_without_mean 4))%nat) by (cbn; lia).
  assert (Hex : Exists (fun r : pydict => r <> ∅) (rows_without_mean 4))
    by (apply (bool_decide_unpack _); by vm_compute).
  assert (Hno : Forall (fun r : pydict => r !! "value_mean" = None) (rows_without_mean 4))
    by (apply (bool_decide_unpack _); by vm_compute).
  split; [exact H3|]. split; [exact Hex|]. split; [exact Hno|].
  exact (enrich_dataset_needs_value_mean iso_parse "2025-05-03T02:00:00"
           (rows_without_mean 4) 9 H3 Hex Hno).
Defined.



Lemma clean_data_absent_key_witness :
  filter (fun c => Forall (fun r : pydict => r !! c = None) records_without_id)
         ["id"; "timestamp"] <> []
  /\ clean_data iso_parse isqrt "2025-05-03" records_without_id = Raise (KeyError ["id"]).
Proof.
  assert (Hne : filter (fun c => Forall (fun r : pydict => r !! c = None) records_without_id)
                       ["id"; "timestamp"] <> []) by (by vm_compute).
  split; [exact Hne|].
  exact (clean_data_absent_key iso_parse isqrt "2025-05-03" records_without_id Hne).
Defined.



(** * The manifest validator *)

Lemma missing_fields_nil (entries : gmap string yaml) :
  filter (fun field => entries !! field = None) ["apiVersion"; "kind"; "metadata"] = []
  <-> is_Some (entries !! "apiVersion") /\ is_Some (entries !! "kind")
      /\ is_Some (entries !! "metadata").
Proof.
  rewrite !filter_cons, filter_nil. rewrite <- !not_eq_None_Some.
  repeat case_decide; split; try done; intros (? & ? & ?); done.
Qed.

Lemma validate_manifest_nil file_path content index :
  validate_manifest file_path content index = [] <-> well_formed content.
Proof.
  unfold well_formed, validate_manifest. split.
  - destruct content as [| | | | | |entries]; try done.
    destruct (entries !! "metadata") as [[| | | | | |metadata]|] eqn:Hm;
      try (by intros ?%app_eq_nil; destruct_and!).
    destruct (decide (metadata !! "name" = None)) as [|Hn];
      [by intros ?%app_eq_nil; destruct_and!|].
    intros He%fmap_nil_inv. apply missing_fields_nil in He as (Ha & Hk & _).
    exists entries, metadata. split_and!; try done. by apply not_eq_None_Some.
  - intros (entries & metadata & -> & Ha & Hk & Hm & Hn).
    rewrite Hm. rewrite decide_False by (by apply not_eq_None_Some).
    rewrite (proj2 (missing_fields_nil entries)); [done|].
    split_and!; try done; by rewrite Hm.
Qed.

(** X17. A mapping without [metadata] is reported twice for it: as a missing
    field and as a [metadata] that is no mapping. *)
Theorem validate_manifest_missing_metadata file_path entries index :
  entries !! "metadata" = None ->
  let errors := validate_manifest file_path (YMap entries) index in
  {| error := "Missing field: metadata"; file := doc_id file_path index |} ∈ errors
  /\ {| error := "metadata is not a dictionary"; file := doc_id file_path index |} ∈ errors
  /\ (2 <= length errors <= 4)%nat.
Proof.
  intros Hm errors. unfold errors, validate_manifest. rewrite Hm.
  rewrite !filter_cons, filter_nil, Hm. rewrite (decide_True (P := None = None)) by done.
  destruct (decide (entries !! "apiVersion" = None)),
           (decide (entries !! "kind" = None)); cbn;
    (split_and!; [set_solver|set_solver|lia|lia]).
Qed.

(** X18. Whatever the document, every issue names it by [doc_id] (the path,
    and the number of the document counted from 1 when an index is given),
    and a document gets at most four issues. *)
Theorem validate_manifest_issues file_path content index :
  let errors := validate_manifest file_path content index in
  Forall (fun e => file e = doc_id file_path index) errors
  /\ (length errors <= 4)%nat.
Proof.
  cbn zeta. unfold validate_manifest.
  destruct content as [| | | | | |entries]; try (split; [by repeat constructor|cbn; lia]).
  rewrite !filter_cons, filter_nil.
  destruct (decide (entries !! "apiVersion" = None)),
           (decide (entries !! "kind" = None)),
           (decide (entries !! "metadata" = None)),
           (entries !! "metadata") as [[| | | | | |metadata]|]; cbn;
    try case_decide; cbn; (split; [by repeat constructor|lia]).
Qed.

(** X16. A document passes exactly when it is a mapping with [apiVersion],
    [kind] and a mapping [metadata] that has a [name]. *)
Theorem validate_manifest_passes file_path content index :
  validate_manifest file_path content index = [] <-> well_formed content.
Proof. apply validate_manifest_nil. Qed.

Lemma list_nil_iff {A} (l : list A) : l = [] <-> forall x, x ∉ l.
Proof.
  split; [intros -> x; apply not_elem_of_nil|apply elem_of_nil_inv].
Qed.

Lemma elem_of_process_directory walk load e :
  e ∈ process_directory walk load
  <-> exists root files filename,
        (root, files) ∈ walk /\ filename ∈ files /\ is_manifest_file filename = true
        /\ match load (path_join root filename) with
           | Docs docs =>
               exists idx doc, docs !! idx = Some doc
                 /\ e ∈ validate_manifest (path_join root filename) doc
                                          (Some (Z.of_nat idx))
           | LoadError msg => e = {| error := msg; file := path_join root filename |}
           end.
Proof.
  unfold process_directory. rewrite list_elem_of_bind. split.
  - intros ([root files] & He & Hw). apply list_elem_of_bind in He as (filename & He & Hf).
    fold (is_manifest_file filename) in He.
    destruct (is_manifest_file filename) eqn:Hy; [|by apply elem_of_nil in He].
    exists root, files, filename. split_and!; try done.
    destruct (load (path_join root filename)) as [docs|msg].
    + apply list_elem_of_join in He as (l & He & Hl).
      apply elem_of_lookup_imap in Hl as (idx & doc & -> & Hd). eauto.
    + by apply list_elem_of_singleton in He.
  - intros (root & files & filename & Hw & Hf & Hy & He).
    exists (root, files). split; [|done]. apply list_elem_of_bind.
    exists filename. split; [|done]. fold (is_manifest_file filename). rewrite Hy.
    destruct (load (path_join root filename)) as [docs|msg].
    + destruct He as (idx & doc & Hd & He). apply list_elem_of_join.
      eexists. split; [exact He|]. apply elem_of_lookup_imap. eauto.
    + by apply list_elem_of_singleton.
Qed.

Lemma process_directory_nil walk load :
  process_directory walk load = [] <-> all_manifests_valid walk load.
Proof.
  rewrite list_nil_iff. unfold all_manifests_valid. split.
  - intros Hnil root files filename Hw Hf Hy.
    destruct (load (path_join root filename)) as [docs|msg] eqn:Hl.
    + exists docs. split; [done|]. apply Forall_lookup. intros idx doc Hd.
      apply (validate_manifest_nil (path_join root filename) doc (Some (Z.of_nat idx))).
      apply list_nil_iff. intros e He. apply (Hnil e), elem_of_process_directory.
      exists root, files, filename. rewrite Hl. eauto 10.
    + destruct (Hnil {| error := msg; file := path_join root filename |}).
      apply elem_of_process_directory. exists root, files, filename. by rewrite Hl.
  - intros Hall e He. apply elem_of_process_directory in He
      as (root & files & filename & Hw & Hf & Hy & He).
    destruct (Hall root files filename Hw Hf Hy) as (docs & Hl & Hwf). rewrite Hl in He.
    destruct He as (idx & doc & Hd & He).
    rewrite Forall_lookup in Hwf. specialize (Hwf idx doc Hd).
    apply (validate_manifest_nil (path_join root filename) doc (Some (Z.of_nat idx)))
      in Hwf. rewrite Hwf in He. by apply elem_of_nil in He.
Qed.

(** X19. The run exits with status 0 and reports success exactly when every
    file named [*.yaml] or [*.yml] on the walk loads and holds well-formed
    documents only; otherwise it exits with status 1 and reports the issues
    found, of which there is at least one. *)
Theorem main_exit_status walk load :
  (all_manifests_valid walk load
   <-> main walk load = (StatusSuccess "All files are valid ✅", 0))
  /\ (¬ all_manifests_valid walk load
      <-> main walk load = (StatusFailed (process_directory walk load), 1)
          /\ process_directory walk load <> []).
Proof.
  rewrite <- process_directory_nil. unfold main.
  destruct (process_directory walk load) as [|e issues]; split; split; try done.
  by intros [_ ?].
Qed.

(** X20. Only the files named [*.yaml] or [*.yml] are opened: what the other
    paths hold has no effect on the issues. *)
Theorem process_directory_reads_manifests_only walk load load' :
  (forall root files filename,
     (root, files) ∈ walk -> filename ∈ files -> is_manifest_file filename = true ->
     load (path_join root filename) = load' (path_join root filename)) ->
  process_directory walk load = process_directory walk load'.
Proof.
  intros Hsame. unfold process_directory.
  apply Forall_bind_ext, Forall_forall. intros [root files] Hw.
  apply Forall_bind_ext, Forall_forall. intros filename Hf.
  fold (is_manifest_file filename).
  destruct (is_manifest_file filename) eqn:Hy; [|done].
  by rewrite (Hsame root files filename).
Qed.

Lemma validate_manifest_missing_metadata_witness :
  service_entries !! "metadata" = None
  /\ validate_manifest "k8s/svc.yaml" no_metadata (Some 1)
     = [{| error := "Missing field: metadata"; file := "k8s/svc.yaml (doc #2)" |};
        {| error := "metadata is not a dictionary"; file := "k8s/svc.yaml (doc #2)" |}]
  /\ {| error := "Missing field: metadata"; file := doc_id "k8s/svc.yaml" (Some 1) |}
     ∈ validate_manifest "k8s/svc.yaml" no_metadata (Some 1).
Proof.
  assert (Hm : service_entries !! "metadata" = None) by reflexivity.
  split; [exact Hm|]. split; [reflexivity|].
  exact (proj1 (validate_manifest_missing_metadata "k8s/svc.yaml" service_entries
                  (Some 1) Hm)).
Defined.

Lemma process_directory_reads_manifests_only_witness :
  manifests_load "k8s/README.md" <> manifests_load' "k8s/README.md"
  /\ process_directory manifests_walk manifests_load
     = process_directory manifests_walk manifests_load'.
Proof.
  split; [done|].
  apply (process_directory_reads_manifests_only manifests_walk manifests_load
           manifests_load').
  intros root files filename Hw Hf Hy. unfold manifests_walk in Hw.
  rewrite !elem_of_cons, elem_of_nil in Hw.
  destruct Hw as [[= -> ->]|[[= -> ->]|[]]];
    rewrite !elem_of_cons, elem_of_nil in Hf.
  - destruct Hf as [->|[->|[]]]; [reflexivity|discriminate Hy].
  - destruct Hf as [->|[]]. reflexivity.
Defined.
